(** * OSCE Live Skill Review: a shallow embedding of [streamlit_app.py]

    The application is one Streamlit script.  Its data are Python
    dataclasses whose fields are not type-checked at run time, a
    per-user store [st.session_state], and JSON documents read and
    written with the [json] module.  The embedding keeps that shape:

    - [pyval] is the universe of Python values that [json.loads] can
      return; dataclass fields hold a [pyval], as they do in Python;
    - [result] is a computation that returns or raises;
    - [St] is the script's effect: the session store and the page are
      threaded through, and a raised exception keeps the writes that
      were made before it;
    - each widget handler of the script is one definition, taking what
      the widget returned as an argument. *)

From Stdlib Require Import String Ascii List ZArith Bool Arith Lia.
From Stdlib Require Import Floats.SpecFloat DecimalString.
Import ListNotations.
Local Open Scope list_scope.
Local Open Scope string_scope.

(* ------------------------------------------------------------------ *)
(** ** Python values *)

(** A Python [str] is a [string] whose characters stand for code points
    below 256; a [float] is an IEEE-754 value; a [dict] with [str] keys
    is an association list in insertion order. *)
#[local] Set Warnings "-register-all".
Inductive pyval : Type :=
| PNone
| PBool (b : bool)
| PInt (z : Z)
| PFloat (f : spec_float)
| PStr (s : string)
| PList (l : list pyval)
| PDict (d : list (string * pyval)).

(** Exception classes the modelled code can raise. *)
Inductive exn : Type :=
| JSONDecodeError
| UnicodeDecodeError
| TypeError
| AttributeError
| ValueError
| DuplicateWidgetID.

Inductive result (A : Type) : Type :=
| Ok (a : A)
| Raise (e : exn).
Arguments Ok {A} a.
Arguments Raise {A} e.

Definition rbind {A B} (r : result A) (k : A -> result B) : result B :=
  match r with
  | Ok a => k a
  | Raise e => Raise e
  end.

(** [[f(x) for x in xs]]: evaluated left to right, the first exception
    wins. *)
Fixpoint rmap {A B} (f : A -> result B) (xs : list A) : result (list B) :=
  match xs with
  | [] => Ok []
  | x :: xs' =>
      rbind (f x) (fun y => rbind (rmap f xs') (fun ys => Ok (y :: ys)))
  end.

(** [d.get(k)] and [k in d]. *)
Fixpoint dict_get (k : string) (d : list (string * pyval)) : option pyval :=
  match d with
  | [] => None
  | (k', v) :: d' => if String.eqb k k' then Some v else dict_get k d'
  end.

Definition dict_keys (d : list (string * pyval)) : list string := map fst d.

(** The number a [bool] or [int] denotes. *)
Definition int_of_bool (b : bool) : Z := if b then 1%Z else 0%Z.

(** [int == float]: Python compares the two exactly. *)
Definition int_eq_float (z : Z) (f : spec_float) : bool :=
  match f with
  | S754_zero _ => Z.eqb z 0
  | S754_finite s m e =>
      let mag := Z.pos m in
      let sgn := fun v : Z => if s then Z.opp v else v in
      if Z.leb 0 e then Z.eqb z (sgn (mag * 2 ^ e))%Z
      else Z.eqb (mag mod 2 ^ (- e)) 0 && Z.eqb z (sgn (mag / 2 ^ (- e)))%Z
  | S754_infinity _ | S754_nan => false
  end.

(** [a == b] on JSON-shaped values: numbers compare by value across
    [bool], [int] and [float]; [nan] differs from itself; lists compare
    element-wise and dicts key-wise. *)
Fixpoint py_eq (a b : pyval) {struct a} : bool :=
  match a, b with
  | PNone, PNone => true
  | PBool x, PBool y => Bool.eqb x y
  | PBool x, PInt z | PInt z, PBool x => Z.eqb (int_of_bool x) z
  | PBool x, PFloat f | PFloat f, PBool x => int_eq_float (int_of_bool x) f
  | PInt x, PInt y => Z.eqb x y
  | PInt z, PFloat f | PFloat f, PInt z => int_eq_float z f
  | PFloat f, PFloat g => SFeqb f g
  | PStr s, PStr t => String.eqb s t
  | PList l, PList m =>
      (fix go (l m : list pyval) : bool :=
         match l, m with
         | [], [] => true
         | x :: l', y :: m' => py_eq x y && go l' m'
         | _, _ => false
         end) l m
  | PDict d, PDict e =>
      Nat.eqb (length d) (length e) &&
      (fix go (d : list (string * pyval)) : bool :=
         match d with
         | [] => true
         | (k, v) :: d' =>
             match dict_get k e with
             | Some w => py_eq v w
             | None => false
             end && go d'
         end) d
  | _, _ => false
  end.

(** Truth value of an object in [if x:]. *)
Definition truthy (v : pyval) : bool :=
  match v with
  | PNone => false
  | PBool b => b
  | PInt z => negb (Z.eqb z 0)
  | PFloat (S754_zero _) => false
  | PFloat _ => true
  | PStr s => negb (String.eqb s "")
  | PList l => match l with [] => false | _ => true end
  | PDict d => match d with [] => false | _ => true end
  end.

(** [for x in v]: a list yields its elements, a dict its keys, a str its
    characters; any other JSON value is not iterable. *)
Definition py_iter (v : pyval) : result (list pyval) :=
  match v with
  | PList l => Ok l
  | PDict d => Ok (map PStr (dict_keys d))
  | PStr s => Ok (map (fun c => PStr (String c "")) (list_ascii_of_string s))
  | _ => Raise TypeError
  end.

(** [str.isspace] on the modelled range of code points. *)
Definition isspace (c : ascii) : bool :=
  let n := nat_of_ascii c in
  (((9 <=? n) && (n <=? 13)) || ((28 <=? n) && (n <=? 32))
   || (n =? 133) || (n =? 160))%nat.

Fixpoint lstrip (s : string) : string :=
  match s with
  | "" => ""
  | String c s' => if isspace c then lstrip s' else s
  end.

Fixpoint rstrip (s : string) : string :=
  match s with
  | "" => ""
  | String c s' =>
      let r := rstrip s' in
      if isspace c && String.eqb r "" then "" else String c r
  end.

(** [s.strip()] *)
Definition strip (s : string) : string := rstrip (lstrip s).

(* ------------------------------------------------------------------ *)
(** ** Data models and constants *)

Module RubricStatus.
Definition PENDING : string := "pending".
Definition MET : string := "met".
Definition NOT_MET : string := "not_met".
End RubricStatus.

(** The three dataclasses.  A dataclass does not check the annotated
    types, so a field holds whatever value the constructor was given. *)
Record RubricItem : Type := mkRubricItem {
  id : pyval;
  skill : pyval;
  status : pyval
}.

Record TranscriptEntry : Type := mkTranscriptEntry {
  speaker : pyval;
  text : pyval;
  ts : pyval
}.

Record UserDetails : Type := mkUserDetails {
  name : pyval;
  phone : pyval;
  designation : pyval
}.

(** [C( **kw )] for a dataclass [C]: the argument after the two stars has to be a
    mapping, every key has to name a field, and every field without a
    default has to be given. *)
Definition kwargs (fields : list string) (v : pyval)
  : result (list (string * pyval)) :=
  match v with
  | PDict kw =>
      if forallb (fun k => existsb (String.eqb k) fields) (dict_keys kw)
      then Ok kw else Raise TypeError
  | _ => Raise TypeError
  end.

Definition required (k : string) (kw : list (string * pyval)) : result pyval :=
  match dict_get k kw with
  | Some v => Ok v
  | None => Raise TypeError
  end.

Definition optional (k : string) (dflt : pyval) (kw : list (string * pyval))
  : pyval :=
  match dict_get k kw with
  | Some v => v
  | None => dflt
  end.

(** [RubricItem( **r )]; [status] defaults to [RubricStatus.PENDING]. *)
Definition RubricItem_init (r : pyval) : result RubricItem :=
  rbind (kwargs ["id"; "skill"; "status"] r) (fun kw =>
  rbind (required "id" kw) (fun i =>
  rbind (required "skill" kw) (fun s =>
  Ok (mkRubricItem i s (optional "status" (PStr RubricStatus.PENDING) kw))))).

(** [TranscriptEntry( **t )] *)
Definition TranscriptEntry_init (t : pyval) : result TranscriptEntry :=
  rbind (kwargs ["speaker"; "text"; "ts"] t) (fun kw =>
  rbind (required "speaker" kw) (fun sp =>
  rbind (required "text" kw) (fun tx =>
  rbind (required "ts" kw) (fun tm =>
  Ok (mkTranscriptEntry sp tx tm))))).

(** [UserDetails( **ud )] *)
Definition UserDetails_init (ud : pyval) : result UserDetails :=
  rbind (kwargs ["name"; "phone"; "designation"] ud) (fun kw =>
  rbind (required "name" kw) (fun n =>
  rbind (required "phone" kw) (fun p =>
  rbind (required "designation" kw) (fun d =>
  Ok (mkUserDetails n p d))))).

(** [asdict(x)]: the fields in declaration order.  The values are deep
    copies, which are equal to the originals as values. *)
Definition asdict_RubricItem (r : RubricItem) : pyval :=
  PDict [("id", id r); ("skill", skill r); ("status", status r)].

Definition asdict_TranscriptEntry (t : TranscriptEntry) : pyval :=
  PDict [("speaker", speaker t); ("text", text t); ("ts", ts t)].

Definition asdict_UserDetails (u : UserDetails) : pyval :=
  PDict [("name", name u); ("phone", phone u);
         ("designation", designation u)].

Definition new_RubricItem (i s : string) : RubricItem :=
  mkRubricItem (PStr i) (PStr s) (PStr RubricStatus.PENDING).

Definition INITIAL_RUBRIC : list RubricItem :=
  [ new_RubricItem "hand_hygiene" "Hand hygiene";
    new_RubricItem "introduce_self" "Introduces self to patient";
    new_RubricItem "explain_procedure" "Explains procedure";
    new_RubricItem "obtain_consent" "Obtains consent";
    new_RubricItem "maintain_privacy" "Maintains privacy and dignity" ].

(* ------------------------------------------------------------------ *)
(** ** Session state and the page *)

(** The dict stored in [st.session_state.suggested_update]. *)
Record Suggestion : Type := mkSuggestion {
  skillId : pyval;
  sug_status : string;
  reasoning : string
}.

(** [st.session_state] once the script has initialised it. *)
Record SessionState : Type := mkSessionState {
  session_status : string;
  transcript : list TranscriptEntry;
  rubric : list RubricItem;
  suggested_update : option Suggestion;
  saved_session : option pyval;
  start_time : option spec_float;
  duration_seconds : option Z;
  user_details : option UserDetails;
  summary_text : option string
}.

(** What a handler shows to the user. *)
Inductive element : Type :=
| st_success (m : string)
| st_warning (m : string)
| st_error (m : string) (e : exn).

(** The world a handler runs in: the store, and the elements written
    to the page so far (oldest first). *)
Record App : Type := mkApp {
  ss : SessionState;
  page : list element
}.

(** The store as the script's first run leaves it. *)
Definition initial_state : SessionState :=
  {| session_status := "idle";
     transcript := [];
     rubric := INITIAL_RUBRIC;
     suggested_update := None;
     saved_session := None;
     start_time := None;
     duration_seconds := None;
     user_details := None;
     summary_text := None |}.

Definition set_transcript (v : list TranscriptEntry) (s : SessionState) :=
  {| session_status := session_status s; transcript := v;
     rubric := rubric s; suggested_update := suggested_update s;
     saved_session := saved_session s; start_time := start_time s;
     duration_seconds := duration_seconds s;
     user_details := user_details s; summary_text := summary_text s |}.

Definition set_rubric (v : list RubricItem) (s : SessionState) :=
  {| session_status := session_status s; transcript := transcript s;
     rubric := v; suggested_update := suggested_update s;
     saved_session := saved_session s; start_time := start_time s;
     duration_seconds := duration_seconds s;
     user_details := user_details s; summary_text := summary_text s |}.

Definition set_user_details (v : option UserDetails) (s : SessionState) :=
  {| session_status := session_status s; transcript := transcript s;
     rubric := rubric s; suggested_update := suggested_update s;
     saved_session := saved_session s; start_time := start_time s;
     duration_seconds := duration_seconds s;
     user_details := v; summary_text := summary_text s |}.

Definition set_session_status (v : string) (s : SessionState) :=
  {| session_status := v; transcript := transcript s;
     rubric := rubric s; suggested_update := suggested_update s;
     saved_session := saved_session s; start_time := start_time s;
     duration_seconds := duration_seconds s;
     user_details := user_details s; summary_text := summary_text s |}.

Definition set_suggested_update (v : option Suggestion) (s : SessionState) :=
  {| session_status := session_status s; transcript := transcript s;
     rubric := rubric s; suggested_update := v;
     saved_session := saved_session s; start_time := start_time s;
     duration_seconds := duration_seconds s;
     user_details := user_details s; summary_text := summary_text s |}.

(** [r.status = v] *)
Definition set_status (v : pyval) (r : RubricItem) : RubricItem :=
  mkRubricItem (id r) (skill r) v.

(* ------------------------------------------------------------------ *)
(** ** The script's effect *)

(** A piece of the script reads and writes the world and either returns
    or raises.  Writes made before a [raise] stay, as in Python. *)
Definition St (A : Type) : Type := App -> result A * App.

Definition ret {A} (a : A) : St A := fun w => (Ok a, w).

Definition bind {A B} (m : St A) (k : A -> St B) : St B :=
  fun w =>
    match m w with
    | (Ok a, w') => k a w'
    | (Raise e, w') => (Raise e, w')
    end.

Definition lift {A} (r : result A) : St A := fun w => (r, w).

Definition read {A} (f : SessionState -> A) : St A :=
  fun w => (Ok (f (ss w)), w).

Definition write (f : SessionState -> SessionState) : St unit :=
  fun w => (Ok tt, mkApp (f (ss w)) (page w)).

Definition show (e : element) : St unit :=
  fun w => (Ok tt, mkApp (ss w) (page w ++ [e])%list).

(** [try: body  except Exception as e: handler(e)] *)
Definition try_except (body : St unit) (handler : exn -> St unit) : St unit :=
  fun w =>
    match body w with
    | (Ok u, w') => (Ok u, w')
    | (Raise e, w') => handler e w'
    end.

Declare Scope st_scope.
Delimit Scope st_scope with st.
Notation "x <- m ;; k" := (bind m (fun x => k))
  (at level 100, m at next level, right associativity) : st_scope.
Notation "m ;; k" := (bind m (fun _ => k))
  (at level 100, right associativity) : st_scope.

(** The world after running a handler. *)
Definition run {A} (m : St A) (w : App) : App := snd (m w).

(** [xs[i] = f(xs[i])] for an index in range. *)
Fixpoint update_at {A} (i : nat) (f : A -> A) (xs : list A) : list A :=
  match xs, i with
  | [], _ => []
  | x :: xs', O => f x :: xs'
  | x :: xs', S i' => x :: update_at i' f xs'
  end.

(** [xs.append(x)] *)
Definition append {A} (xs : list A) (x : A) : list A := (xs ++ [x])%list.

(** [xs[-n:]] *)
Definition slice_last {A} (n : nat) (xs : list A) : list A :=
  skipn (length xs - n) xs.

(** [options.index(v)]: position of the first option equal to [v]. *)
Fixpoint list_index (v : pyval) (options : list string) : result nat :=
  match options with
  | [] => Raise ValueError
  | o :: options' =>
      if py_eq (PStr o) v then Ok O
      else rbind (list_index v options') (fun i => Ok (S i))
  end.

(** [data.get(key, default)]: only a dict has [get]. *)
Definition py_get (data : pyval) (key : string) (default : pyval)
  : result pyval :=
  match data with
  | PDict d =>
      Ok (match dict_get key d with Some v => v | None => default end)
  | _ => Raise AttributeError
  end.

Definition as_str (v : pyval) : result string :=
  match v with
  | PStr s => Ok s
  | _ => Raise TypeError
  end.

(** [sep.join(xs)]: every element has to be a [str]. *)
Definition join (sep : string) (xs : list pyval) : result string :=
  rbind (rmap as_str xs) (fun strs => Ok (String.concat sep strs)).

Definition LF : string := String (ascii_of_nat 10) "".

(** [st.selectbox(..., index=index, key=key)]: Streamlit refuses a key
    that another widget of the same run already has; otherwise the call
    returns the option the user picked in this widget, or
    [options[index]] when the widget was left alone.  [keys] are the
    keys given earlier in the run. *)
Definition selectbox (picked : option string) (options : list string)
    (index : nat) (key : string) (keys : list string) : result string :=
  if existsb (String.eqb key) keys then Raise DuplicateWidgetID
  else Ok (match picked with
           | Some v => v
           | None => nth index options ""
           end).

Definition status_options : list string :=
  [RubricStatus.PENDING; RubricStatus.MET; RubricStatus.NOT_MET].

Definition transcript_append (e : TranscriptEntry) (s : SessionState)
  : SessionState :=
  set_transcript (append (transcript s) e) s.

Definition system_entry (msg : string) (now : spec_float) : TranscriptEntry :=
  mkTranscriptEntry (PStr "system") (PStr msg) (PFloat now).

(* ------------------------------------------------------------------ *)
(** ** A reference model of the library, and sample sessions *)

(** The smallest model of the library calls the script makes: an
    uploaded file either is not UTF-8 or holds text, and text either is
    not JSON or is the document of one value. *)
Module Ref.

Inductive json_text : Type :=
| NotJson
| Document (v : pyval).

Inductive bytes : Type :=
| NotUtf8
| Utf8 (t : json_text).

Definition json_dumps (v : pyval) : json_text := Document v.

Definition json_loads (t : json_text) : result pyval :=
  match t with
  | NotJson => Raise JSONDecodeError
  | Document v => Ok v
  end.

Definition encode_utf8 (t : json_text) : bytes := Utf8 t.

Definition decode_utf8 (b : bytes) : result json_text :=
  match b with
  | NotUtf8 => Raise UnicodeDecodeError
  | Utf8 t => Ok t
  end.

(** [str(v)] where it is short to write down; floats and containers
    are not rendered. *)
Definition py_str (v : pyval) : string :=
  match v with
  | PNone => "None"
  | PBool true => "True"
  | PBool false => "False"
  | PInt z => NilZero.string_of_int (Z.to_int z)
  | PStr s => s
  | PFloat _ | PList _ | PDict _ => "..."
  end.

End Ref.

(** 1.0 and 2.0 *)
Definition one : spec_float := S754_finite false 1 0.
Definition two : spec_float := S754_finite false 1 1.

(* ------------------------------------------------------------------ *)
(** ** The script *)

Section Script.

(** What the script takes from Python and its standard library.  The
    text of a JSON document and the uploaded bytes are only handed from
    one library call to the next, so their types stay abstract. *)
Variable bytes : Type.
Variable json_text : Type.

(** [json.dumps(v, ensure_ascii=False, indent=2)] and [json.loads] *)
Variable json_dumps : pyval -> json_text.
Variable json_loads : json_text -> result pyval.

(** [s.encode("utf-8")] and [b.decode("utf-8")] *)
Variable encode_utf8 : json_text -> bytes.
Variable decode_utf8 : bytes -> result json_text.

(** [str(v)] for an object that is not a [str], as an f-string
    renders it. *)
Variable py_str : pyval -> string.

(** The library's contract: what was written is read back. *)
Hypothesis decode_encode_utf8 : forall t, decode_utf8 (encode_utf8 t) = Ok t.
Hypothesis loads_dumps : forall v, json_loads (json_dumps v) = Ok v.

(** [f"{v}"] *)
Definition format_value (v : pyval) : string :=
  match v with
  | PStr s => s
  | _ => py_str v
  end.

(** *** Utility functions *)

Definition save_session_to_bytes (session : pyval) : bytes :=
  encode_utf8 (json_dumps session).

Definition load_session_from_bytes (b : bytes) : result pyval :=
  rbind (decode_utf8 b) json_loads.

(** The function reads [st.session_state['user_details']] for the
    greeting, so the store is an argument of the model. *)
Definition generate_local_summary (session_state : SessionState)
    (transcript : list TranscriptEntry) (rubric : list RubricItem)
  : result string :=
  let strengths :=
    map skill
      (filter (fun r => py_eq (status r) (PStr RubricStatus.MET)) rubric) in
  let needs :=
    map skill
      (filter (fun r => py_eq (status r) (PStr RubricStatus.NOT_MET)) rubric) in
  let student_lines :=
    map text (filter (fun t => py_eq (speaker t) (PStr "user")) transcript) in
  let recent :=
    if (1 <=? length student_lines)%nat then slice_last 3 student_lines
    else [] in
  let lines : list string := [] in
  let lines :=
    append lines
      ("Dear " ++
       match user_details session_state with
       | Some ud => format_value (name ud)
       | None => "Student"
       end ++ ",") in
  rbind
    (if truthy (PList strengths)
     then rbind (join ", " strengths) (fun j =>
          Ok (append lines ("Strengths: " ++ j ++ ".")))
     else Ok lines) (fun lines =>
  rbind
    (if truthy (PList needs)
     then rbind (join ", " needs) (fun j =>
          Ok (append lines ("Areas for improvement: " ++ j ++ ".")))
     else Ok lines) (fun lines =>
  rbind
    (if truthy (PList recent)
     then rbind (join " / " recent) (fun j =>
          Ok (append lines ("Notes from the session: " ++ j)))
     else Ok lines) (fun lines =>
  let lines :=
    append lines
      "Suggestions: Practice the identified areas; follow checklist steps clearly during the examination." in
  Ok (String.concat (LF ++ LF) lines)))).

(** *** Sidebar: load and save *)

Local Open Scope st_scope.

(** [[TranscriptEntry( **t ) for t in data.get("transcript", [])]] *)
Definition restored_transcript (data : pyval) : result (list TranscriptEntry) :=
  rbind (py_get data "transcript" (PList [])) (fun v =>
  rbind (py_iter v) (rmap TranscriptEntry_init)).

(** [[RubricItem( **r ) for r in data.get("rubric", [])]] *)
Definition restored_rubric (data : pyval) : result (list RubricItem) :=
  rbind (py_get data "rubric" (PList [])) (fun v =>
  rbind (py_iter v) (rmap RubricItem_init)).

(** The body of the [try] of the upload handler. *)
Definition restore (uploaded : bytes) : St unit :=
  data <- lift (load_session_from_bytes uploaded) ;;
  tr <- lift (restored_transcript data) ;;
  write (set_transcript tr) ;;
  ru <- lift (restored_rubric data) ;;
  write (set_rubric ru) ;;
  ud <- lift (py_get data "user_details" PNone) ;;
  (if truthy ud
   then u <- lift (UserDetails_init ud) ;;
        write (set_user_details (Some u))
   else ret tt) ;;
  show (st_success "Session loaded from file.") ;;
  write (set_session_status "ended").

(** [if uploaded: try: ... except Exception as e: st.error(...)] *)
Definition load_handler (uploaded : option bytes) : St unit :=
  match uploaded with
  | Some b =>
      try_except (restore b)
        (fun e => show (st_error "Failed to load session: " e))
  | None => ret tt
  end.

(** The dict built by the "Download session JSON" button. *)
Definition session_dump (s : SessionState) : pyval :=
  PDict
    [ ("user_details",
       match user_details s with
       | Some u => asdict_UserDetails u
       | None => PNone
       end);
      ("transcript", PList (map asdict_TranscriptEntry (transcript s)));
      ("rubric", PList (map asdict_RubricItem (rubric s)));
      ("summary",
       match summary_text s with
       | Some t => PStr t
       | None => PNone
       end) ].

Definition download_session (s : SessionState) : bytes :=
  save_session_to_bytes (session_dump s).

(** *** Transcript form *)

(** "Add to transcript" with the speaker and the text of the form. *)
Definition add_transcript (speaker_choice text_input : string)
    (now : spec_float) : St unit :=
  if truthy (PStr (strip text_input))
  then
    write (transcript_append
             (mkTranscriptEntry (PStr speaker_choice)
                (PStr (strip text_input)) (PFloat now))) ;;
    show (st_success "Added.")
  else ret tt.

(** *** Rubric *)

(** [f"rubric_{item.id}"], the key of the selectbox of an item. *)
Definition widget_key (item : RubricItem) : string :=
  "rubric_" ++ format_value (id item).

(** The loop that draws one selectbox per rubric item and writes its
    value back; [picked idx] is what the user chose in the widget of
    item [idx], if anything, and [keys] are the keys of the rows drawn
    so far.  The arguments of the call are evaluated first, so a status
    that is no option raises before the key is looked at. *)
Fixpoint rubric_rows (picked : nat -> option string) (idx : nat)
    (keys : list string) (items : list RubricItem) : St unit :=
  match items with
  | [] => ret tt
  | item :: items' =>
      index <- lift (list_index (status item) status_options) ;;
      let key := widget_key item in
      new_status <-
        lift (selectbox (picked idx) status_options index key keys) ;;
      write (fun s =>
               set_rubric
                 (update_at idx (set_status (PStr new_status)) (rubric s)) s) ;;
      rubric_rows picked (S idx) (key :: keys) items'
  end.

Definition rubric_selectboxes (picked : nat -> option string) : St unit :=
  items <- read rubric ;;
  rubric_rows picked 0 [] items.

(** *** Suggestions *)

Definition propose_suggestion (skill_choice : pyval)
    (status_choice reasoning_input : string) : St unit :=
  write (set_suggested_update
           (Some (mkSuggestion skill_choice status_choice reasoning_input))) ;;
  show (st_success "Suggestion created. Await user confirmation.").

(** [for r in rubric: if r.id == su["skillId"]: r.status = su["status"]] *)
Definition apply_suggestion (su : Suggestion) (rubric : list RubricItem)
  : list RubricItem :=
  map (fun r =>
         if py_eq (id r) (skillId su)
         then set_status (PStr (sug_status su)) r else r)
      rubric.

(** The two buttons are drawn only while a suggestion is pending. *)
Definition accept_suggestion (now : spec_float) : St unit :=
  pending <- read suggested_update ;;
  match pending with
  | Some su =>
      write (fun s => set_rubric (apply_suggestion su (rubric s)) s) ;;
      write (transcript_append
               (system_entry
                  ("Suggestion accepted for " ++ format_value (skillId su))
                  now)) ;;
      write (set_suggested_update None) ;;
      show (st_success "Suggestion accepted.")
  | None => ret tt
  end.

Definition reject_suggestion (now : spec_float) : St unit :=
  pending <- read suggested_update ;;
  match pending with
  | Some su =>
      write (transcript_append
               (system_entry
                  ("Suggestion rejected for " ++ format_value (skillId su))
                  now)) ;;
      write (set_suggested_update None) ;;
      show (st_success "Suggestion rejected.")
  | None => ret tt
  end.

(** *** Footer *)

(** "Mark all pending as not met" *)
Definition mark_all_pending_not_met : St unit :=
  write (fun s =>
           set_rubric
             (map (fun r =>
                     if py_eq (status r) (PStr RubricStatus.PENDING)
                     then set_status (PStr RubricStatus.NOT_MET) r else r)
                  (rubric s)) s) ;;
  show (st_success "Updated pending items.").

(** *** The summary as the specification words it *)

Definition is_str (v : pyval) : bool :=
  match v with
  | PStr _ => true
  | _ => false
  end.

Definition str_of (v : pyval) : string :=
  match v with
  | PStr s => s
  | _ => ""
  end.

Definition has_status (st : string) (r : RubricItem) : bool :=
  match status r with
  | PStr s => String.eqb s st
  | _ => false
  end.

Definition spoken_by (who : string) (t : TranscriptEntry) : bool :=
  match speaker t with
  | PStr s => String.eqb s who
  | _ => false
  end.

(** Up to the last [n] elements: all of them when there are fewer. *)
Definition last_n {A} (n : nat) (xs : list A) : list A :=
  rev (firstn n (rev xs)).

(** A section that is emitted only for a non-empty subset. *)
Definition optional_line (render : string -> string) (sep : string)
    (items : list string) : list string :=
  match items with
  | [] => []
  | _ => [render (String.concat sep items)]
  end.

Definition closing_sentence : string :=
  "Suggestions: Practice the identified areas; follow checklist steps clearly during the examination.".

(** The name the greeting uses. *)
Definition participant (s : SessionState) : string :=
  match user_details s with
  | Some ud => format_value (name ud)
  | None => "Student"
  end.

Definition summary_sections (who : string)
    (transcript : list TranscriptEntry) (rubric : list RubricItem)
  : list string :=
  let met := map (fun r => str_of (skill r)) (filter (has_status "met") rubric) in
  let not_met :=
    map (fun r => str_of (skill r)) (filter (has_status "not_met") rubric) in
  let recent :=
    last_n 3
      (map (fun t => str_of (text t)) (filter (spoken_by "user") transcript)) in
  let greeting := "Dear " ++ who ++ "," in
  let strengths := optional_line (fun j => "Strengths: " ++ j ++ ".") ", " met in
  let areas :=
    optional_line (fun j => "Areas for improvement: " ++ j ++ ".") ", " not_met in
  let notes :=
    optional_line (fun j => "Notes from the session: " ++ j) " / " recent in
  (greeting :: strengths ++ areas ++ notes ++ [closing_sentence])%list.

(** Sections joined by one blank line. *)
Definition summary_spec (who : string)
    (transcript : list TranscriptEntry) (rubric : list RubricItem) : string :=
  String.concat (LF ++ LF) (summary_sections who transcript rubric).

(** The session state a successful load leaves behind. *)
Definition loaded (tr : list TranscriptEntry) (ru : list RubricItem)
    (ud : option UserDetails) (s : SessionState) : SessionState :=
  set_session_status "ended"
    (match ud with
     | Some u => set_user_details (Some u) (set_rubric ru (set_transcript tr s))
     | None => set_rubric ru (set_transcript tr s)
     end).

(** An entry of a document that is an object without one of [fields]. *)
Definition lacks (fields : list string) (entry : pyval) : bool :=
  match entry with
  | PDict kw =>
      existsb (fun k => match dict_get k kw with
                        | None => true
                        | Some _ => false
                        end) fields
  | _ => false
  end.

(** The payload is not UTF-8 or not JSON. *)
Definition not_valid_json (b : bytes) : Prop :=
  exists e, load_session_from_bytes b = Raise e.

(** The payload is a document with a transcript entry that lacks
    [speaker], [text] or [ts]. *)
Definition transcript_entry_incomplete (b : bytes) : Prop :=
  exists d entries entry,
    load_session_from_bytes b = Ok (PDict d)
    /\ dict_get "transcript" d = Some (PList entries)
    /\ In entry entries
    /\ lacks ["speaker"; "text"; "ts"] entry = true.

(** The payload is a document with a rubric item that lacks [id] or
    [skill]. *)
Definition rubric_item_incomplete (b : bytes) : Prop :=
  exists d items item,
    load_session_from_bytes b = Ok (PDict d)
    /\ dict_get "rubric" d = Some (PList items)
    /\ In item items
    /\ lacks ["id"; "skill"] item = true.



(** A handler surfaces a failure when it raises, or writes a warning or
    an error to the page. *)
Definition is_failure (e : element) : bool :=
  match e with
  | st_success _ => false
  | st_warning _ | st_error _ _ => true
  end.

Definition reports_failure {A} (m : St A) (w : App) : bool :=
  match m w with
  | (Raise _, _) => true
  | (Ok _, w') => existsb is_failure (skipn (length (page w)) (page w'))
  end.

(** One submission of the transcript form: speaker, text, time. *)
Definition form_call : Type := string * string * spec_float.

Definition nonblank (c : form_call) : bool :=
  let '(_, tx, _) := c in truthy (PStr (strip tx)).

Definition entry_of (c : form_call) : TranscriptEntry :=
  let '(sp, tx, now) := c in
  mkTranscriptEntry (PStr sp) (PStr (strip tx)) (PFloat now).

(** The form submitted once per call, in order. *)
Definition add_all (calls : list form_call) (w : App) : App :=
  fold_left (fun w c => let '(sp, tx, now) := c in
                        run (add_transcript sp tx now) w) calls w.

(** What the selectbox of row [idx] hands back for [item]. *)
Definition row_status (picked : nat -> option string) (idx : nat)
    (item : RubricItem) : pyval :=
  match picked idx with
  | Some v => PStr v
  | None => status item
  end.

(** The status is one of the three options of the selectbox. *)
Definition valid_status (r : RubricItem) : bool :=
  has_status "pending" r || has_status "met" r || has_status "not_met" r.


(** No key of [ks] is among [keys] or occurs twice in [ks]. *)
Fixpoint keys_free (keys ks : list string) : bool :=
  match ks with
  | [] => true
  | k :: ks' => negb (existsb (String.eqb k) keys) && keys_free (k :: keys) ks'
  end.

(** The first and the last character of a text, and texts of white
    space only. *)
Definition first_char (s : string) : option ascii :=
  match s with
  | "" => None
  | String c _ => Some c
  end.

Fixpoint last_char (s : string) : option ascii :=
  match s with
  | "" => None
  | String c "" => Some c
  | String _ s' => last_char s'
  end.

Fixpoint all_space (s : string) : bool :=
  match s with
  | "" => true
  | String c s' => isspace c && all_space s'
  end.

(** The rows the selectbox loop leaves, for rows [idx], [idx+1], ... *)
Fixpoint rows_after (picked : nat -> option string) (idx : nat)
    (items : list RubricItem) : list RubricItem :=
  match items with
  | [] => []
  | item :: items' =>
      set_status (row_status picked idx item) item
      :: rows_after picked (S idx) items'
  end.

(** *** Sample sessions *)

Definition alice : UserDetails :=
  mkUserDetails (PStr "Alice") (PStr "555-0100") (PStr "Student nurse").

Definition bob : UserDetails :=
  mkUserDetails (PStr "Bob") (PStr "555-0101") (PStr "Intern").

Definition sample_rubric : list RubricItem :=
  [ mkRubricItem (PStr "a") (PStr "Hand hygiene") (PStr "met");
    mkRubricItem (PStr "b") (PStr "Consent") (PStr "not_met") ].

Definition sample_transcript : list TranscriptEntry :=
  [ mkTranscriptEntry (PStr "user") (PStr "Hi doctor") (PInt 1) ].

(** The store after the welcome form, with a transcript and a rubric. *)
Definition session_of (ud : option UserDetails)
    (tr : list TranscriptEntry) (ru : list RubricItem) : SessionState :=
  set_user_details ud (set_rubric ru (set_transcript tr initial_state)).

Definition fresh : App := mkApp initial_state [].

(** A document whose transcript is complete and whose only rubric item
    has no [skill]. *)
Definition half_good_document : pyval :=
  PDict
    [ ("user_details", PNone);
      ("transcript",
       PList [PDict [("speaker", PStr "user"); ("text", PStr "Hi doctor");
                     ("ts", PInt 1)]]);
      ("rubric", PList [PDict [("id", PStr "a")]]);
      ("summary", PNone) ].

(** A document whose rubric items leave [status] out. *)
Definition document_without_status : pyval :=
  PDict
    [ ("user_details", PNone);
      ("transcript", PList []);
      ("rubric",
       PList [PDict [("id", PStr "a"); ("skill", PStr "Hand hygiene")];
              PDict [("skill", PStr "Consent"); ("id", PStr "b")]]);
      ("summary", PNone) ].



(* ------------------------------------------------------------------ *)
(** ** The rest of the script *)

Definition set_summary_text (v : option string) (s : SessionState) :=
  {| session_status := session_status s; transcript := transcript s;
     rubric := rubric s; suggested_update := suggested_update s;
     saved_session := saved_session s; start_time := start_time s;
     duration_seconds := duration_seconds s;
     user_details := user_details s; summary_text := v |}.

Definition set_start_time (v : option spec_float) (s : SessionState) :=
  {| session_status := session_status s; transcript := transcript s;
     rubric := rubric s; suggested_update := suggested_update s;
     saved_session := saved_session s; start_time := v;
     duration_seconds := duration_seconds s;
     user_details := user_details s; summary_text := summary_text s |}.

Definition set_duration_seconds (v : option Z) (s : SessionState) :=
  {| session_status := session_status s; transcript := transcript s;
     rubric := rubric s; suggested_update := suggested_update s;
     saved_session := saved_session s; start_time := start_time s;
     duration_seconds := v;
     user_details := user_details s; summary_text := summary_text s |}.

Definition set_saved_session (v : option pyval) (s : SessionState) :=
  {| session_status := session_status s; transcript := transcript s;
     rubric := rubric s; suggested_update := suggested_update s;
     saved_session := v; start_time := start_time s;
     duration_seconds := duration_seconds s;
     user_details := user_details s; summary_text := summary_text s |}.

(** *** Text of the email report *)

(** ASCII letters.  [str.title] and [str.capitalize] are modelled on
    ASCII text, where they are exact; outside ASCII Python consults the
    Unicode case tables, which the model does not carry. *)
Definition is_upper (c : ascii) : bool :=
  let n := nat_of_ascii c in ((65 <=? n) && (n <=? 90))%nat.

Definition is_lower (c : ascii) : bool :=
  let n := nat_of_ascii c in ((97 <=? n) && (n <=? 122))%nat.

Definition to_upper (c : ascii) : ascii :=
  if is_lower c then ascii_of_nat (nat_of_ascii c - 32) else c.

Definition to_lower (c : ascii) : ascii :=
  if is_upper c then ascii_of_nat (nat_of_ascii c + 32) else c.

Fixpoint map_chars (f : ascii -> ascii) (s : string) : string :=
  match s with
  | "" => ""
  | String c s' => String (f c) (map_chars f s')
  end.

(** [s.replace(a, b)] for one-character [a] and [b]. *)
Definition replace_char (a b : ascii) (s : string) : string :=
  map_chars (fun c => if Ascii.eqb c a then b else c) s.

(** [s.title()]: a letter that follows a letter is lowered, any other
    letter is raised. *)
Fixpoint title_from (after_letter : bool) (s : string) : string :=
  match s with
  | "" => ""
  | String c s' =>
      String (if after_letter then to_lower c else to_upper c)
        (title_from (is_upper c || is_lower c) s')
  end.

Definition title (s : string) : string := title_from false s.

(** [s.capitalize()] *)
Definition capitalize (s : string) : string :=
  match s with
  | "" => ""
  | String c s' => String (to_upper c) (map_chars to_lower s')
  end.

(** A [str] method called on a value: any other object has no such
    attribute. *)
Definition str_method (f : string -> string) (v : pyval) : result string :=
  match v with
  | PStr s => Ok (f s)
  | _ => Raise AttributeError
  end.

(** [ri.status.replace('_', ' ').title()] *)
Definition status_label (ri : RubricItem) : result string :=
  rbind (str_method (replace_char "_" " ") (status ri)) (fun s => Ok (title s)).

Definition format_rubric_for_email (rubric : list RubricItem) : result string :=
  rbind
    (rmap (fun ri =>
             rbind (status_label ri) (fun label =>
             Ok ("- " ++ format_value (skill ri) ++ ": " ++ label)))
       rubric)
    (fun lines => Ok (String.concat LF lines)).

(** The local function [who] of [format_transcript_for_email]. *)
Definition who (e : TranscriptEntry) : result string :=
  if py_eq (speaker e) (PStr "user") then Ok "Student"
  else if py_eq (speaker e) (PStr "ai") then Ok "Examiner"
  else str_method capitalize (speaker e).

(** [e.speaker in ("user", "ai")] *)
Definition in_user_ai (e : TranscriptEntry) : bool :=
  py_eq (PStr "user") (speaker e) || py_eq (PStr "ai") (speaker e).

Definition format_transcript_for_email (transcript : list TranscriptEntry)
  : result string :=
  rbind
    (rmap (fun e =>
             rbind (who e) (fun role =>
             Ok (role ++ ": " ++ format_value (text e))))
       (filter in_user_ai transcript))
    (fun paragraphs => Ok (String.concat (LF ++ LF) paragraphs)).

(** *** Session controls *)

Local Open Scope st_scope.

(** [[RubricItem( **asdict(i) ) for i in INITIAL_RUBRIC]] *)
Definition fresh_rubric : result (list RubricItem) :=
  rmap RubricItem_init (map asdict_RubricItem INITIAL_RUBRIC).

(** "Clear saved session in memory" *)
Definition clear_saved_session : St unit :=
  write (set_saved_session None) ;;
  show (st_success "Cleared.").

(** The welcome form, drawn while there are no user details;
    [duration] is the whole number of minutes of the number input, which
    the widget keeps between 1 and 180. *)
Definition welcome_form (name_input phone_input designation_input : string)
    (duration : Z) : St unit :=
  ud <- read user_details ;;
  match ud with
  | Some _ => ret tt
  | None =>
      if negb (truthy (PStr name_input))
      then show (st_warning "Please enter name.")
      else
        write (set_user_details
                 (Some (mkUserDetails (PStr name_input) (PStr phone_input)
                          (PStr designation_input)))) ;;
        write (set_duration_seconds (Some (duration * 60)%Z)) ;;
        write (set_session_status "idle")
  end.

(** "Start New Session", drawn while the session is not live. *)
Definition start_new_session (now : spec_float) : St unit :=
  st <- read session_status ;;
  if negb (String.eqb st "live")
  then
    write (set_transcript []) ;;
    ru <- lift fresh_rubric ;;
    write (set_rubric ru) ;;
    write (set_suggested_update None) ;;
    write (set_summary_text None) ;;
    write (set_start_time (Some now)) ;;
    write (set_session_status "live")
  else ret tt.

(** "End Session", drawn while the session is live. *)
Definition end_session : St unit :=
  st <- read session_status ;;
  if String.eqb st "live"
  then
    write (set_session_status "ended") ;;
    s <- read (fun s => s) ;;
    summary <- lift (generate_local_summary s (transcript s) (rubric s)) ;;
    write (set_summary_text (Some summary)) ;;
    show (st_success "Session ended. Summary created.")
  else ret tt.

(** The "Session Summary" block: the summary is made when the session
    has ended and there is none yet.  (The text area and the info box
    it draws are not part of the modelled page.) *)
Definition session_summary : St unit :=
  st <- read session_status ;;
  if String.eqb st "ended"
  then
    present <- read summary_text ;;
    match present with
    | None =>
        s <- read (fun s => s) ;;
        summary <- lift (generate_local_summary s (transcript s) (rubric s)) ;;
        write (set_summary_text (Some summary))
    | Some _ => ret tt
    end
  else ret tt.

(** A camera snapshot of [size] bytes. *)
Definition camera_snapshot (size : Z) (now : spec_float) : St unit :=
  write (transcript_append
           (system_entry
              ("Snapshot captured (size " ++ format_value (PInt size)
               ++ " bytes)") now)) ;;
  show (st_success "Snapshot saved to transcript.").

(** The dict built by "Save session to local JSON"; [asdict] rejects
    [None]. *)
Definition footer_dump (s : SessionState) : result pyval :=
  match user_details s with
  | None => Raise TypeError
  | Some u =>
      Ok (PDict
            [ ("user_details", asdict_UserDetails u);
              ("rubric", PList (map asdict_RubricItem (rubric s)));
              ("transcript", PList (map asdict_TranscriptEntry (transcript s)));
              ("summary",
               match summary_text s with
               | Some t => PStr t
               | None => PNone
               end) ])
  end.

(** "Clear transcript & rubric" *)
Definition clear_transcript_rubric : St unit :=
  write (set_transcript []) ;;
  ru <- lift fresh_rubric ;;
  write (set_rubric ru) ;;
  write (set_summary_text None) ;;
  show (st_success "Cleared.").

(** A JSON value that is not an object. *)
Definition not_an_object (v : pyval) : bool :=
  match v with
  | PDict _ => false
  | _ => true
  end.

(** An object of a document with a key that is not one of [fields]. *)
Definition unexpected_key (fields : list string) (entry : pyval) : bool :=
  match entry with
  | PDict kw =>
      existsb (fun k => negb (existsb (String.eqb k) fields)) (dict_keys kw)
  | _ => false
  end.

(** The paragraph the email shows for an entry of the student or the
    examiner. *)
Definition paragraph (e : TranscriptEntry) : string :=
  (if spoken_by "user" e then "Student" else "Examiner")
  ++ ": " ++ format_value (text e).

(** The label the email shows for one of the three statuses. *)
Definition status_name (r : RubricItem) : string :=
  if has_status "pending" r then "Pending"
  else if has_status "met" r then "Met"
  else "Not Met".

(** *** One user action at a time *)

(** What the user can do on the page, with what the widgets hand to the
    script. *)
Inductive action : Type :=
| Welcome (name_input phone_input designation_input : string) (duration : Z)
| StartNewSession (now : spec_float)
| EndSession
| Snapshot (size : Z) (now : spec_float)
| AddTranscript (speaker_choice text_input : string) (now : spec_float)
| RubricRows (picked : nat -> option string)
| ProposeSuggestion (skill_choice : pyval)
    (status_choice reasoning_input : string)
| AcceptSuggestion (now : spec_float)
| RejectSuggestion (now : spec_float)
| SessionSummary
| ClearTranscriptRubric
| MarkAllPending
| ClearSavedSession
| Upload (uploaded : bytes).

Definition perform (a : action) : St unit :=
  match a with
  | Welcome n p d m => welcome_form n p d m
  | StartNewSession now => start_new_session now
  | EndSession => end_session
  | Snapshot size now => camera_snapshot size now
  | AddTranscript sp tx now => add_transcript sp tx now
  | RubricRows picked => rubric_selectboxes picked
  | ProposeSuggestion sk st re => propose_suggestion sk st re
  | AcceptSuggestion now => accept_suggestion now
  | RejectSuggestion now => reject_suggestion now
  | SessionSummary => session_summary
  | ClearTranscriptRubric => clear_transcript_rubric
  | MarkAllPending => mark_all_pending_not_met
  | ClearSavedSession => clear_saved_session
  | Upload b => load_handler (Some b)
  end.

Definition perform_all (actions : list action) (w : App) : App :=
  fold_left (fun w a => run (perform a) w) actions w.

(** A selectbox hands back one of its options. *)
Definition from_widgets (a : action) : Prop :=
  match a with
  | RubricRows picked =>
      forall idx v, picked idx = Some v -> In v status_options
  | ProposeSuggestion _ status_choice _ =>
      In status_choice [RubricStatus.MET; RubricStatus.NOT_MET]
  | _ => True
  end.

Definition is_upload (a : action) : bool :=
  match a with
  | Upload _ => true
  | _ => false
  end.

(** The actions that never replace the transcript. *)
Definition keeps_transcript (a : action) : bool :=
  match a with
  | StartNewSession _ | ClearTranscriptRubric | Upload _ => false
  | _ => true
  end.

(** The store of a session in which no file was loaded: the rubric has
    the identifiers and the skills of the initial one and statuses among
    the three options, a pending suggestion carries one of the two
    statuses it can be given, and the texts of the transcript are
    strings. *)
Definition ui_session (s : SessionState) : Prop :=
  map id (rubric s) = map id INITIAL_RUBRIC
  /\ map skill (rubric s) = map skill INITIAL_RUBRIC
  /\ forallb valid_status (rubric s) = true
  /\ match suggested_update s with
     | Some su => In (sug_status su) [RubricStatus.MET; RubricStatus.NOT_MET]
     | None => True
     end
  /\ forallb (fun t => is_str (text t)) (transcript s) = true.

(* ------------------------------------------------------------------ *)
(** ** Properties *)

(** *** Python values *)

Lemma py_eq_str_r (v : pyval) (t : string) :
  py_eq v (PStr t) = match v with PStr s => String.eqb s t | _ => false end.
Proof. destruct v; reflexivity. Qed.

Lemma py_eq_str_l (t : string) (v : pyval) :
  py_eq (PStr t) v = match v with PStr s => String.eqb t s | _ => false end.
Proof. destruct v; reflexivity. Qed.

Lemma rmap_ok {A B} (f : A -> result B) (g : A -> B) (xs : list A) :
  (forall x, In x xs -> f x = Ok (g x)) -> rmap f xs = Ok (map g xs).
Proof.
  induction xs as [|x xs IH]; intros H; simpl.
  - reflexivity.
  - rewrite (H x (or_introl eq_refl)). simpl.
    rewrite IH by (intros y Hy; apply H; right; exact Hy).
    reflexivity.
Qed.

Lemma rmap_raise {A B} (f : A -> result B) (xs : list A) (x : A) (e : exn) :
  In x xs -> f x = Raise e -> exists e', rmap f xs = Raise e'.
Proof.
  induction xs as [|y xs IH]; intros Hin Hx; simpl in *.
  - contradiction.
  - destruct (f y) as [b|e0] eqn:Hy; simpl.
    + destruct Hin as [->|Hin]; [congruence|].
      destruct (IH Hin Hx) as [e' ->]. simpl. eauto.
    + eauto.
Qed.

Lemma join_strs (sep : string) (xs : list pyval) :
  forallb is_str xs = true -> join sep xs = Ok (String.concat sep (map str_of xs)).
Proof.
  intros H. unfold join.
  rewrite (rmap_ok as_str str_of); [reflexivity|].
  intros x Hx. rewrite forallb_forall in H. specialize (H x Hx).
  destruct x; simpl in H; try discriminate. reflexivity.
Qed.

Lemma append_empty_r (s : string) : s ++ "" = s.
Proof. induction s as [|c s IH]; simpl; [reflexivity | now rewrite IH]. Qed.

(** *** Slices *)

Lemma slice_last_last_n {A} (n : nat) (xs : list A) :
  slice_last n xs = last_n n xs.
Proof.
  unfold slice_last, last_n. rewrite firstn_rev, rev_involutive. reflexivity.
Qed.

Lemma forallb_skipn {A} (p : A -> bool) (n : nat) (xs : list A) :
  forallb p xs = true -> forallb p (skipn n xs) = true.
Proof.
  revert n. induction xs as [|x xs IH]; intros [|n] H; simpl in *; auto.
  apply andb_prop in H. apply IH, H.
Qed.

Lemma forallb_map_filter {A B} (p : B -> bool) (f : A -> B) (q : A -> bool)
    (xs : list A) :
  forallb (fun x => p (f x)) xs = true ->
  forallb p (map f (filter q xs)) = true.
Proof.
  induction xs as [|x xs IH]; simpl; intros H; [reflexivity|].
  apply andb_prop in H. destruct H as [Hx Hxs].
  destruct (q x); simpl; [rewrite Hx|]; auto.
Qed.

(** *** The summary *)

Lemma summary_step (lines : list string) (render : string -> string)
    (sep : string) (items : list pyval) :
  forallb is_str items = true ->
  (if truthy (PList items)
   then rbind (join sep items) (fun j => Ok (append lines (render j)))
   else Ok lines)
  = Ok (lines ++ optional_line render sep (map str_of items))%list.
Proof.
  intros H. destruct items as [|x items].
  - simpl. now rewrite app_nil_r.
  - rewrite (join_strs _ _ H). reflexivity.
Qed.

Lemma filter_met (st : string) (rubric : list RubricItem) :
  filter (fun r => py_eq (status r) (PStr st)) rubric
  = filter (has_status st) rubric.
Proof.
  apply filter_ext. intros r. unfold has_status. apply py_eq_str_r.
Qed.

Lemma filter_speaker (who : string) (transcript : list TranscriptEntry) :
  filter (fun t => py_eq (speaker t) (PStr who)) transcript
  = filter (spoken_by who) transcript.
Proof.
  apply filter_ext. intros r. unfold spoken_by. apply py_eq_str_r.
Qed.

Lemma recent_lines {A} (xs : list A) :
  (if (1 <=? length xs)%nat then slice_last 3 xs else []) = last_n 3 xs.
Proof.
  destruct xs as [|x xs].
  - reflexivity.
  - simpl Nat.leb. apply slice_last_last_n.
Qed.

Lemma last_n_map {A B} (f : A -> B) (n : nat) (xs : list A) :
  map f (last_n n xs) = last_n n (map f xs).
Proof.
  rewrite <- !slice_last_last_n. unfold slice_last.
  rewrite length_map. symmetry. apply skipn_map.
Qed.

Lemma optional_line_nonempty (render : string -> string) (sep : string)
    (items : list string) :
  (forall j, render j <> "") ->
  Forall (fun line => line <> "") (optional_line render sep items).
Proof.
  intros H. destruct items; simpl; constructor; auto.
Qed.

Lemma summary_sections_last (who : string) (transcript : list TranscriptEntry)
    (rubric : list RubricItem) :
  exists before,
    summary_sections who transcript rubric = (before ++ [closing_sentence])%list.
Proof.
  unfold summary_sections.
  match goal with
  | |- context [(?g :: ?a ++ ?b ++ ?c ++ [closing_sentence])%list] =>
      exists (g :: a ++ b ++ c)%list
  end.
  simpl. now rewrite <- !app_assoc.
Qed.

(** C4. [generate_local_summary] follows the stated algorithm.  For a
    rubric whose skills and a transcript whose texts are strings, the
    function returns the text the specification describes: the rubric is
    split, in rubric order, into the met and the not-met skills; the
    last three lines spoken by [user] are taken (all of them when there
    are fewer, none when there are none); after the greeting, the
    "Strengths", "Areas for improvement" and "Notes from the session"
    lines are emitted only for a non-empty subset, joined with a comma
    or with " / "; the closing sentence always comes last; and the
    emitted sections, none of them empty, are joined by one blank line. *)
Theorem generate_local_summary_algorithm (s : SessionState)
    (transcript : list TranscriptEntry) (rubric : list RubricItem) :
  forallb (fun r => is_str (skill r)) rubric = true ->
  forallb (fun t => is_str (text t)) transcript = true ->
  generate_local_summary s transcript rubric
  = Ok (summary_spec (participant s) transcript rubric)
  /\ Forall (fun line => line <> "")
       (summary_sections (participant s) transcript rubric)
  /\ exists before,
       summary_sections (participant s) transcript rubric
       = (before ++ [closing_sentence])%list.
Proof.
  intros Hskill Htext. split; [|split].
  - unfold generate_local_summary.
    rewrite !filter_met, filter_speaker, recent_lines.
    rewrite summary_step
      by (apply (forallb_map_filter is_str skill); exact Hskill).
    cbn [rbind].
    rewrite summary_step
      by (apply (forallb_map_filter is_str skill); exact Hskill).
    cbn [rbind].
    rewrite summary_step.
    2:{ rewrite <- slice_last_last_n. apply forallb_skipn.
        apply (forallb_map_filter is_str text). exact Htext. }
    cbn [rbind]. unfold summary_spec, summary_sections, append.
    rewrite last_n_map, !map_map.
    do 2 f_equal. cbn [app]. rewrite <- !app_assoc. reflexivity.
  - unfold summary_sections. constructor; [discriminate|].
    apply Forall_app; split;
      [apply optional_line_nonempty; intros j; discriminate|].
    apply Forall_app; split;
      [apply optional_line_nonempty; intros j; discriminate|].
    apply Forall_app; split;
      [apply optional_line_nonempty; intros j; discriminate|].
    constructor; [discriminate | constructor].
  - apply summary_sections_last.
Qed.

(** C1 (amended).  [generate_local_summary] is a function of the
    transcript, the rubric and the participant's name held in
    [st.session_state['user_details']]: two session states that agree on
    that name (or both have no user details) give the same result for
    the same transcript and rubric, whatever else they hold. *)
Theorem generate_local_summary_reads_only_the_name (s1 s2 : SessionState)
    (transcript : list TranscriptEntry) (rubric : list RubricItem) :
  option_map name (user_details s1) = option_map name (user_details s2) ->
  generate_local_summary s1 transcript rubric
  = generate_local_summary s2 transcript rubric.
Proof.
  intros H. unfold generate_local_summary.
  destruct (user_details s1) as [u1|], (user_details s2) as [u2|];
    simpl in H; try discriminate; [injection H as ->|]; reflexivity.
Qed.

(** *** Dataclasses and their dicts *)

Lemma TranscriptEntry_init_asdict (t : TranscriptEntry) :
  TranscriptEntry_init (asdict_TranscriptEntry t) = Ok t.
Proof. destruct t; reflexivity. Qed.

Lemma RubricItem_init_asdict (r : RubricItem) :
  RubricItem_init (asdict_RubricItem r) = Ok r.
Proof. destruct r; reflexivity. Qed.

Lemma UserDetails_init_asdict (u : UserDetails) :
  UserDetails_init (asdict_UserDetails u) = Ok u.
Proof. destruct u; reflexivity. Qed.

Lemma rmap_init_asdict {A} (init : pyval -> result A) (asdict : A -> pyval)
    (xs : list A) :
  (forall x, init (asdict x) = Ok x) ->
  rmap init (map asdict xs) = Ok xs.
Proof.
  intros H. induction xs as [|x xs IH]; simpl; [reflexivity|].
  rewrite H. simpl. rewrite IH. reflexivity.
Qed.

Lemma load_download (s : SessionState) :
  load_session_from_bytes (download_session s) = Ok (session_dump s).
Proof.
  unfold load_session_from_bytes, download_session, save_session_to_bytes.
  rewrite decode_encode_utf8. simpl. apply loads_dumps.
Qed.

Lemma restored_transcript_dump (s : SessionState) :
  restored_transcript (session_dump s) = Ok (transcript s).
Proof.
  unfold restored_transcript. simpl.
  apply rmap_init_asdict, TranscriptEntry_init_asdict.
Qed.

Lemma restored_rubric_dump (s : SessionState) :
  restored_rubric (session_dump s) = Ok (rubric s).
Proof.
  unfold restored_rubric. simpl.
  apply rmap_init_asdict, RubricItem_init_asdict.
Qed.

Lemma load_handler_download (s : SessionState) (w : App) :
  load_handler (Some (download_session s)) w
  = (Ok tt,
     mkApp (loaded (transcript s) (rubric s) (user_details s) (ss w))
           (page w ++ [st_success "Session loaded from file."])%list).
Proof.
  unfold load_handler, try_except, restore, bind, lift, write, show.
  rewrite load_download, restored_transcript_dump. cbn [ss page].
  rewrite restored_rubric_dump. cbn [ss page].
  unfold loaded. destruct (user_details s) as [u|] eqn:Hu.
  - unfold session_dump. rewrite Hu. cbn [py_get dict_get String.eqb Ascii.eqb
      Bool.eqb]. cbn [asdict_UserDetails truthy].
    change (PDict [("name", name u); ("phone", phone u);
                   ("designation", designation u)])
      with (asdict_UserDetails u).
    rewrite UserDetails_init_asdict. reflexivity.
  - unfold session_dump. rewrite Hu. reflexivity.
Qed.


(** C3 (amended).  Loading the bytes that "Download session JSON" wrote
    for a session [s] restores the transcript and the rubric of [s],
    field by field equal to the originals, and the user details of [s]
    when [s] has them; when [s] has none the document carries [null]
    and the user details of the loading session stay as they are.  The
    document has the four keys [user_details], [transcript], [rubric]
    and [summary] only: the status is set to ["ended"], and
    [start_time] and [duration_seconds] are left as the loading session
    had them. *)
Theorem load_download_roundtrip (s : SessionState) (w : App) :
  let w' := run (load_handler (Some (download_session s))) w in
  transcript (ss w') = transcript s
  /\ rubric (ss w') = rubric s
  /\ user_details (ss w')
     = match user_details s with
       | Some u => Some u
       | None => user_details (ss w)
       end
  /\ session_status (ss w') = "ended"
  /\ start_time (ss w') = start_time (ss w)
  /\ duration_seconds (ss w') = duration_seconds (ss w)
  /\ (exists d, session_dump s = PDict d
        /\ dict_keys d = ["user_details"; "transcript"; "rubric"; "summary"]).
Proof.
  unfold run. rewrite load_handler_download. cbn [snd ss].
  unfold loaded, session_dump.
  destruct (user_details s) as [u|]; cbn;
    repeat split; eexists; split; reflexivity.
Qed.

(** *** The upload handler, step by step *)

Lemma restore_run (b : bytes) (w : App) :
  restore b w =
  match load_session_from_bytes b with
  | Raise e => (Raise e, w)
  | Ok data =>
      match restored_transcript data with
      | Raise e => (Raise e, w)
      | Ok tr =>
          match restored_rubric data with
          | Raise e => (Raise e, mkApp (set_transcript tr (ss w)) (page w))
          | Ok ru =>
              let s2 := set_rubric ru (set_transcript tr (ss w)) in
              let done ud :=
                (Ok tt,
                 mkApp (loaded tr ru ud (ss w))
                   (page w ++ [st_success "Session loaded from file."])%list) in
              match py_get data "user_details" PNone with
              | Raise e => (Raise e, mkApp s2 (page w))
              | Ok ud =>
                  if truthy ud
                  then match UserDetails_init ud with
                       | Raise e => (Raise e, mkApp s2 (page w))
                       | Ok u => done (Some u)
                       end
                  else done None
              end
          end
      end
  end.
Proof.
  unfold restore, bind, lift, write, show, ret.
  destruct (load_session_from_bytes b) as [data|e]; [|reflexivity].
  destruct (restored_transcript data) as [tr|e]; [|reflexivity].
  cbn [ss page].
  destruct (restored_rubric data) as [ru|e]; [|reflexivity].
  cbn [ss page].
  destruct (py_get data "user_details" PNone) as [ud|e]; [|reflexivity].
  destruct (truthy ud); [|reflexivity].
  destruct (UserDetails_init ud) as [u|e]; reflexivity.
Qed.

Lemma load_handler_raise (b : bytes) (w : App) (e : exn) :
  fst (restore b w) = Raise e ->
  load_handler (Some b) w
  = (Ok tt,
     mkApp (ss (snd (restore b w)))
       (page (snd (restore b w)) ++ [st_error "Failed to load session: " e])%list).
Proof.
  intros H. unfold load_handler, try_except.
  destruct (restore b w) as [[u|e'] w']; simpl in *; [discriminate|].
  injection H as ->. reflexivity.
Qed.

Lemma add_transcript_blank (sp tx : string) (now : spec_float) (w : App) :
  strip tx = "" -> add_transcript sp tx now w = (Ok tt, w).
Proof. intros H. unfold add_transcript. rewrite H. reflexivity. Qed.

Lemma accept_suggestion_none (now : spec_float) (w : App) :
  suggested_update (ss w) = None -> accept_suggestion now w = (Ok tt, w).
Proof.
  intros H. unfold accept_suggestion, bind, read. rewrite H. reflexivity.
Qed.

Lemma reject_suggestion_none (now : spec_float) (w : App) :
  suggested_update (ss w) = None -> reject_suggestion now w = (Ok tt, w).
Proof.
  intros H. unfold reject_suggestion, bind, read. rewrite H. reflexivity.
Qed.

Lemma load_stage_shape (data : pyval) (tr : list TranscriptEntry)
    (s' s : SessionState) :
  restored_transcript data = Ok tr ->
  transcript s' = tr ->
  (forall e', restored_rubric data = Raise e' -> rubric s' = rubric s) ->
  (forall ru, restored_rubric data = Ok ru -> rubric s' = ru) ->
  forall data0 tr0,
    @Ok pyval data = Ok data0 ->
    restored_transcript data0 = Ok tr0 ->
    transcript s' = tr0
    /\ (forall e', restored_rubric data0 = Raise e' -> rubric s' = rubric s)
    /\ (forall ru, restored_rubric data0 = Ok ru -> rubric s' = ru).
Proof.
  intros Htr Ht He Hr data0 tr0 [= <-] Htr0.
  rewrite Htr in Htr0. injection Htr0 as <-. auto.
Qed.

(** C2 (amended).  What a failing operation leaves behind.  A blank
    "Add to transcript" and an accept or reject without a pending
    suggestion leave the store and the page as they were.  A failing
    load reports the error and leaves the user details, the summary,
    the status, the start time, the duration, the pending suggestion
    and the saved session as they were.  It is not atomic: the handler
    assigns as it goes and restores nothing.  The store after a
    failing load is the old one when the payload is not a document or
    its transcript section is rejected; the old one with the
    document's transcript when the rubric section is rejected; and the
    old one with the document's transcript and rubric when the failure
    comes from the user details. *)
Theorem failing_operation_effect :
  (forall sp tx now w,
      strip tx = "" -> add_transcript sp tx now w = (Ok tt, w))
  /\ (forall now w,
         suggested_update (ss w) = None ->
         accept_suggestion now w = (Ok tt, w)
         /\ reject_suggestion now w = (Ok tt, w))
  /\ (forall b w e,
         fst (restore b w) = Raise e ->
         let w' := run (load_handler (Some b)) w in
         page w' = (page w ++ [st_error "Failed to load session: " e])%list
         /\ user_details (ss w') = user_details (ss w)
         /\ summary_text (ss w') = summary_text (ss w)
         /\ session_status (ss w') = session_status (ss w)
         /\ start_time (ss w') = start_time (ss w)
         /\ duration_seconds (ss w') = duration_seconds (ss w)
         /\ suggested_update (ss w') = suggested_update (ss w)
         /\ saved_session (ss w') = saved_session (ss w)
         /\ ss w'
            = match load_session_from_bytes b with
              | Raise _ => ss w
              | Ok data =>
                  match restored_transcript data with
                  | Raise _ => ss w
                  | Ok tr =>
                      match restored_rubric data with
                      | Raise _ => set_transcript tr (ss w)
                      | Ok ru => set_rubric ru (set_transcript tr (ss w))
                      end
                  end
              end
         /\ ((forall data tr,
                 load_session_from_bytes b = Ok data ->
                 restored_transcript data <> Ok tr) ->
             ss w' = ss w)
         /\ (forall data tr,
                load_session_from_bytes b = Ok data ->
                restored_transcript data = Ok tr ->
                transcript (ss w') = tr
                /\ (forall e', restored_rubric data = Raise e' ->
                               rubric (ss w') = rubric (ss w))
                /\ (forall ru, restored_rubric data = Ok ru ->
                               rubric (ss w') = ru))).
Proof.
  split; [|split].
  - intros. now apply add_transcript_blank.
  - intros now w H. split;
      [now apply accept_suggestion_none | now apply reject_suggestion_none].
  - intros b w e H. unfold run. rewrite (load_handler_raise b w e H).
    revert H. rewrite restore_run.
    destruct (load_session_from_bytes b) as [data|e0].
    2:{ cbn. intros [= ->]. do 9 (split; [reflexivity|]).
        split; [reflexivity | discriminate]. }
    destruct (restored_transcript data) as [tr|e0] eqn:Htr.
    2:{ cbn. intros [= ->]. do 9 (split; [reflexivity|]).
        split; [reflexivity | intros ? ? [= <-]; congruence]. }
    assert (Hno : (forall data0 tr0, Ok data = Ok data0 ->
                     restored_transcript data0 <> Ok tr0) -> False).
    { intros Hn. exact (Hn data tr eq_refl Htr). }
    destruct (restored_rubric data) as [ru|e0] eqn:Hru.
    2:{ cbn. intros [= ->].
        do 9 (split; [reflexivity|]).
        split; [intros Hn; destruct (Hno Hn)|].
        apply (load_stage_shape data tr (set_transcript tr (ss w)) (ss w));
          [exact Htr | reflexivity | |];
          intros ? Hx; rewrite Hru in Hx; [reflexivity | discriminate]. }
    cbv zeta.
    assert (Hboth : forall data0 tr0,
               @Ok pyval data = Ok data0 ->
               restored_transcript data0 = Ok tr0 ->
               transcript (set_rubric ru (set_transcript tr (ss w))) = tr0
               /\ (forall e', restored_rubric data0 = Raise e' ->
                              rubric (set_rubric ru (set_transcript tr (ss w)))
                              = rubric (ss w))
               /\ (forall ru0, restored_rubric data0 = Ok ru0 ->
                               rubric (set_rubric ru (set_transcript tr (ss w)))
                               = ru0)).
    { apply (load_stage_shape data tr
               (set_rubric ru (set_transcript tr (ss w))) (ss w));
        [exact Htr | reflexivity | |];
        intros ? Hx; rewrite Hru in Hx; [discriminate|].
      injection Hx as <-. reflexivity. }
    destruct (py_get data "user_details" PNone) as [ud|e0].
    2:{ cbn. intros [= ->].
        do 9 (split; [reflexivity|]).
        split; [intros Hn; destruct (Hno Hn)|].
        exact Hboth. }
    destruct (truthy ud); [|cbn; discriminate].
    destruct (UserDetails_init ud) as [u|e0]; [cbn; discriminate|].
    cbn. intros [= ->].
    do 9 (split; [reflexivity|]).
    split; [intros Hn; destruct (Hno Hn)|].
    exact Hboth.
Qed.

(** *** Incomplete entries *)

Lemma TranscriptEntry_init_lacks (entry : pyval) :
  lacks ["speaker"; "text"; "ts"] entry = true ->
  TranscriptEntry_init entry = Raise TypeError.
Proof.
  destruct entry as [| | | | | |kw]; try discriminate.
  unfold TranscriptEntry_init, kwargs, required, lacks. cbn [existsb].
  destruct (forallb _ (dict_keys kw)); [|reflexivity]. cbn [rbind].
  destruct (dict_get "speaker" kw); [|reflexivity].
  destruct (dict_get "text" kw); [|reflexivity].
  destruct (dict_get "ts" kw); [|reflexivity].
  discriminate.
Qed.

Lemma RubricItem_init_lacks (item : pyval) :
  lacks ["id"; "skill"] item = true ->
  RubricItem_init item = Raise TypeError.
Proof.
  destruct item as [| | | | | |kw]; try discriminate.
  unfold RubricItem_init, kwargs, required, lacks. cbn [existsb].
  destruct (forallb _ (dict_keys kw)); [|reflexivity]. cbn [rbind].
  destruct (dict_get "id" kw); [|reflexivity].
  destruct (dict_get "skill" kw); [|reflexivity].
  discriminate.
Qed.

Lemma restored_transcript_incomplete (d : list (string * pyval))
    (entries : list pyval) (entry : pyval) :
  dict_get "transcript" d = Some (PList entries) ->
  In entry entries ->
  lacks ["speaker"; "text"; "ts"] entry = true ->
  exists e, restored_transcript (PDict d) = Raise e.
Proof.
  intros Hd Hin Hl. unfold restored_transcript, py_get. rewrite Hd. cbn.
  apply (rmap_raise _ _ entry TypeError Hin).
  now apply TranscriptEntry_init_lacks.
Qed.

Lemma restored_rubric_incomplete (d : list (string * pyval))
    (items : list pyval) (item : pyval) :
  dict_get "rubric" d = Some (PList items) ->
  In item items ->
  lacks ["id"; "skill"] item = true ->
  exists e, restored_rubric (PDict d) = Raise e.
Proof.
  intros Hd Hin Hl. unfold restored_rubric, py_get. rewrite Hd. cbn.
  apply (rmap_raise _ _ item TypeError Hin).
  now apply RubricItem_init_lacks.
Qed.

(** C5.  Decoding fails whenever the payload is not valid JSON, or a
    transcript entry lacks one of [speaker], [text], [ts], or a rubric
    item lacks [id] or [skill]: the body of the handler raises, the
    handler reports "Failed to load session" and the rubric in the
    store is the one from before.  When the payload is not valid JSON
    or a transcript entry is incomplete (one without [text], say) the
    store is left exactly as it was, so no entry with an empty text is
    ever made up. *)
Theorem decode_rejects_incomplete (b : bytes) (w : App) :
  not_valid_json b \/ transcript_entry_incomplete b
  \/ rubric_item_incomplete b ->
  exists e,
    fst (restore b w) = Raise e
    /\ let w' := run (load_handler (Some b)) w in
       page w' = (page w ++ [st_error "Failed to load session: " e])%list
       /\ rubric (ss w') = rubric (ss w)
       /\ (not_valid_json b \/ transcript_entry_incomplete b ->
           ss w' = ss w).
Proof.
  intros H.
  assert (Hr : exists e, fst (restore b w) = Raise e
                 /\ rubric (ss (snd (restore b w))) = rubric (ss w)
                 /\ page (snd (restore b w)) = page w
                 /\ (not_valid_json b \/ transcript_entry_incomplete b ->
                     ss (snd (restore b w)) = ss w)).
  { rewrite restore_run.
    destruct H as [[e He]|[(d & entries & entry & Hl & Hd & Hin & Hk)
                          |(d & items & item & Hl & Hd & Hin & Hk)]].
    - rewrite He. exists e. cbn. auto.
    - rewrite Hl.
      destruct (restored_transcript_incomplete d entries entry Hd Hin Hk)
        as [e ->].
      exists e. cbn. auto.
    - rewrite Hl.
      destruct (restored_rubric_incomplete d items item Hd Hin Hk) as [e He].
      rewrite He.
      destruct (restored_transcript (PDict d)) as [tr|e'] eqn:Htr.
      + exists e. cbn. repeat split; auto.
        intros [[e0 H0]|(d0 & en & e0 & Hl0 & Hd0 & Hin0 & Hk0)].
        * congruence.
        * assert (d0 = d) by congruence. subst d0.
          destruct (restored_transcript_incomplete d en e0 Hd0 Hin0 Hk0).
          congruence.
      + exists e'. cbn. auto. }
  destruct Hr as (e & He & Hru & Hpg & Hss). exists e. split; [exact He|].
  unfold run. rewrite (load_handler_raise b w e He). cbn [snd ss page].
  rewrite Hpg. auto.
Qed.

(** *** The default status *)





(** *** Rubric updates *)

Lemma Forall2_map_r {A B} (P : A -> B -> Prop) (f : A -> B) (xs : list A) :
  (forall x, P x (f x)) -> Forall2 P xs (map f xs).
Proof. intros H. induction xs; simpl; constructor; auto. Qed.

Lemma has_status_exclusive (a b : string) (r : RubricItem) :
  a <> b -> has_status a r = true -> has_status b r = false.
Proof.
  unfold has_status. destruct (status r); try discriminate.
  intros Hab Ha. apply String.eqb_eq in Ha. subst.
  apply String.eqb_neq. exact Hab.
Qed.

(** C9.  "Mark all pending as not met" turns the status of every rubric
    item that is ["pending"] into ["not_met"], keeping its [id] and
    [skill], and leaves every other item, those that are ["met"] or
    ["not_met"] among them, exactly as it was.  The rubric keeps its
    length and order, no other field of the session state changes, and
    the page gains the success message. *)
Theorem mark_all_pending_not_met_effect (w : App) :
  let w' := run mark_all_pending_not_met w in
  Forall2
    (fun r r' =>
       id r' = id r /\ skill r' = skill r
       /\ (has_status "pending" r = true -> status r' = PStr "not_met")
       /\ (has_status "pending" r = false -> r' = r)
       /\ (has_status "met" r = true \/ has_status "not_met" r = true ->
           r' = r))
    (rubric (ss w)) (rubric (ss w'))
  /\ ss w' = set_rubric (rubric (ss w')) (ss w)
  /\ page w' = (page w ++ [st_success "Updated pending items."])%list.
Proof.
  cbn. split; [|split; reflexivity].
  apply Forall2_map_r. intros r. rewrite py_eq_str_r.
  fold (has_status RubricStatus.PENDING r).
  change RubricStatus.PENDING with "pending".
  destruct (has_status "pending" r) eqn:Hp; cbn.
  - repeat split; try discriminate.
    intros [Hm|Hn].
    + rewrite (has_status_exclusive "met" "pending" r) in Hp;
        [discriminate | discriminate | exact Hm].
    + rewrite (has_status_exclusive "not_met" "pending" r) in Hp;
        [discriminate | discriminate | exact Hn].
  - repeat split; auto. discriminate.
Qed.


(** *** The transcript form *)

Lemma add_transcript_run (sp tx : string) (now : spec_float) (w : App) :
  add_transcript sp tx now w
  = (Ok tt,
     if nonblank (sp, tx, now)
     then mkApp (transcript_append (entry_of (sp, tx, now)) (ss w))
            (page w ++ [st_success "Added."])%list
     else w).
Proof.
  unfold add_transcript, nonblank, entry_of.
  destruct (truthy (PStr (strip tx))); reflexivity.
Qed.

Lemma skipn_length_app {A} (xs ys : list A) : skipn (length xs) (xs ++ ys) = ys.
Proof. induction xs; simpl; auto. Qed.

Lemma add_all_run (calls : list form_call) (w : App) :
  add_all calls w
  = mkApp
      (set_transcript
         (transcript (ss w) ++ map entry_of (filter nonblank calls))%list
         (ss w))
      (page w ++ map (fun _ => st_success "Added.") (filter nonblank calls))%list.
Proof.
  revert w. induction calls as [|[[sp tx] now] calls IH]; intros w.
  - cbn. rewrite !app_nil_r. destruct w as [[] ?]; reflexivity.
  - cbn [add_all fold_left]. fold (add_all calls). rewrite IH.
    unfold run. rewrite add_transcript_run. cbn [snd filter].
    destruct (nonblank (sp, tx, now)).
    + unfold transcript_append, set_transcript, append. cbn.
      rewrite <- !app_assoc. reflexivity.
    + reflexivity.
Qed.

(** C7 (amended).  "Add to transcript" with a text that is empty after
    trimming does nothing at all, and nothing is shown for it: the
    handler returns normally and the world is the one from before.
    Otherwise it appends one entry, carrying the trimmed text, and shows
    "Added.".  In neither case is a failure surfaced.  So after any
    sequence of submissions the transcript is the old one followed by
    one entry per submission with a non-blank text, in call order, and
    its length has grown by the number of those submissions. *)
Theorem add_transcript_sequence (calls : list form_call) (w : App) :
  let w' := add_all calls w in
  transcript (ss w')
  = (transcript (ss w) ++ map entry_of (filter nonblank calls))%list
  /\ length (transcript (ss w'))
     = length (transcript (ss w)) + length (filter nonblank calls)
  /\ page w'
     = (page w ++ map (fun _ => st_success "Added.") (filter nonblank calls))%list
  /\ (forall sp tx now w0,
         reports_failure (add_transcript sp tx now) w0 = false
         /\ (nonblank (sp, tx, now) = false ->
             add_transcript sp tx now w0 = (Ok tt, w0))).
Proof.
  cbv zeta. rewrite add_all_run. cbn [ss page transcript set_transcript].
  repeat split.
  - now rewrite length_app, length_map.
  - unfold reports_failure. rewrite add_transcript_run.
    destruct (nonblank (sp, tx, now)); cbn [page].
    + now rewrite skipn_length_app.
    + now rewrite skipn_all.
  - intros H. rewrite add_transcript_run, H. reflexivity.
Qed.

(** *** Setting a rubric status *)

Lemma list_index_valid (r : RubricItem) :
  valid_status r = true ->
  exists i, list_index (status r) status_options = Ok i
            /\ PStr (nth i status_options "") = status r.
Proof.
  unfold valid_status, has_status. destruct (status r); try discriminate.
  intros H. apply orb_prop in H. destruct H as [H|H];
    [apply orb_prop in H; destruct H as [H|H]|];
    apply String.eqb_eq in H; subst s.
  - exists 0. split; reflexivity.
  - exists 1. split; reflexivity.
  - exists 2. split; reflexivity.
Qed.

Lemma list_index_invalid (r : RubricItem) :
  valid_status r = false ->
  list_index (status r) status_options = Raise ValueError.
Proof.
  unfold valid_status, has_status, status_options, list_index.
  rewrite !py_eq_str_l.
  destruct (status r); try reflexivity.
  rewrite (String.eqb_sym RubricStatus.PENDING s),
    (String.eqb_sym RubricStatus.MET s),
    (String.eqb_sym RubricStatus.NOT_MET s).
  change RubricStatus.PENDING with "pending".
  change RubricStatus.MET with "met".
  change RubricStatus.NOT_MET with "not_met".
  destruct (String.eqb s "pending"), (String.eqb s "met"),
    (String.eqb s "not_met"); try discriminate.
  reflexivity.
Qed.

Lemma update_at_app {A} (f : A -> A) (pre : list A) (x : A) (rest : list A) :
  update_at (length pre) f (pre ++ x :: rest) = (pre ++ f x :: rest)%list.
Proof. induction pre; simpl; [reflexivity | now rewrite IHpre]. Qed.

Lemma set_status_same (r : RubricItem) : set_status (status r) r = r.
Proof. destruct r; reflexivity. Qed.

Lemma existsb_eqb_In (k : string) (keys : list string) :
  existsb (String.eqb k) keys = true <-> In k keys.
Proof.
  rewrite existsb_exists. split.
  - intros (x & Hin & E). apply String.eqb_eq in E. now subst x.
  - intros Hin. exists k. split; [exact Hin | apply String.eqb_refl].
Qed.

Lemma keys_free_spec (ks : list string) :
  forall keys,
    keys_free keys ks = true
    <-> NoDup ks /\ (forall k, In k ks -> ~ In k keys).
Proof.
  induction ks as [|k ks IH]; intros keys; cbn [keys_free].
  - split; [intros _; split; [constructor | intros ? []] | reflexivity].
  - rewrite andb_true_iff, negb_true_iff, IH. split.
    + intros (Hk & Hnd & Hfree). split.
      * constructor; [|exact Hnd].
        intros Hin. apply (Hfree k Hin). now left.
      * intros k' [<-|Hin] Hkeys.
        -- apply existsb_eqb_In in Hkeys. congruence.
        -- apply (Hfree k' Hin). now right.
    + intros (Hnd & Hfree). inversion Hnd as [|? ? Hnotin Hnd']; subst.
      split; [|split].
      * destruct (existsb (String.eqb k) keys) eqn:E; [|reflexivity].
        apply existsb_eqb_In in E. exfalso. apply (Hfree k); [now left | exact E].
      * exact Hnd'.
      * intros k' Hin [<-|Hkeys]; [contradiction|].
        apply (Hfree k'); [now right | exact Hkeys].
Qed.

Lemma keys_free_nodup (ks : list string) :
  NoDup ks -> keys_free [] ks = true.
Proof.
  intros Hnd. apply keys_free_spec. split; [exact Hnd | intros ? _ []].
Qed.

Lemma keys_free_distinct (ks : list string) :
  keys_free [] ks = true -> NoDup ks.
Proof. intros H. exact (proj1 (proj1 (keys_free_spec ks []) H)). Qed.

Lemma selectbox_row (picked : nat -> option string) (idx i : nat)
    (item : RubricItem) (keys : list string) :
  PStr (nth i status_options "") = status item ->
  existsb (String.eqb (widget_key item)) keys = false ->
  exists v,
    selectbox (picked idx) status_options i (widget_key item) keys = Ok v
    /\ set_status (PStr v) item = set_status (row_status picked idx item) item.
Proof.
  intros Hnth Hkey. unfold selectbox. rewrite Hkey.
  eexists. split; [reflexivity|].
  unfold row_status. destruct (picked idx); [reflexivity | now rewrite Hnth].
Qed.

(** The loop over rows of valid statuses and fresh keys: it reaches the
    rows after them with their keys recorded and their statuses
    written. *)
Lemma rubric_rows_app (picked : nat -> option string)
    (mid rest : list RubricItem) :
  forall (pre : list RubricItem) (keys : list string) (w : App),
    rubric (ss w) = (pre ++ mid ++ rest)%list ->
    forallb valid_status mid = true ->
    keys_free keys (map widget_key mid) = true ->
    rubric_rows picked (length pre) keys (mid ++ rest)%list w
    = rubric_rows picked (length (pre ++ mid)%list)
        (rev (map widget_key mid) ++ keys)%list rest
        (mkApp
           (set_rubric
              (pre ++ rows_after picked (length pre) mid ++ rest)%list (ss w))
           (page w)).
Proof.
  induction mid as [|item mid IH]; intros pre keys w Hw Hv Hk.
  - cbn [rows_after map rev app]. rewrite app_nil_r. cbn [app] in Hw.
    rewrite <- Hw. destruct w as [[] ?]; reflexivity.
  - cbn [forallb] in Hv. apply andb_prop in Hv. destruct Hv as [Hi Hs].
    cbn [map keys_free] in Hk. apply andb_prop in Hk. destruct Hk as [Hk Hks].
    apply negb_true_iff in Hk.
    destruct (list_index_valid item Hi) as (i & Hidx & Hnth).
    destruct (selectbox_row picked (length pre) i item keys Hnth Hk)
      as (v & Hsel & Hrow).
    cbn [app rubric_rows]. unfold bind at 1 2 3, lift. rewrite Hidx, Hsel.
    unfold write. cbn [ss page fst snd].
    cbn [app] in Hw. rewrite Hw, update_at_app, Hrow.
    set (item' := set_status (row_status picked (length pre) item) item).
    specialize (IH (pre ++ [item'])%list (widget_key item :: keys)
                  (mkApp (set_rubric (pre ++ item' :: mid ++ rest)%list (ss w))
                     (page w))).
    rewrite length_app, Nat.add_1_r in IH. rewrite IH.
    + cbn [rows_after map rev]. fold item'.
      rewrite <- !app_assoc. cbn [app].
      replace (length (pre ++ item' :: mid)%list)
        with (length (pre ++ item :: mid)%list)
        by (rewrite !length_app; reflexivity).
      destruct w as [[] ?]; reflexivity.
    + cbn. now rewrite <- app_assoc.
    + exact Hs.
    + exact Hks.
Qed.

Lemma rubric_rows_valid (picked : nat -> option string)
    (items pre : list RubricItem) (w : App) :
  rubric (ss w) = (pre ++ items)%list ->
  forallb valid_status items = true ->
  NoDup (map widget_key items) ->
  rubric_rows picked (length pre) [] items w
  = (Ok tt,
     mkApp (set_rubric (pre ++ rows_after picked (length pre) items)%list (ss w))
       (page w)).
Proof.
  intros Hw Hv Hnd.
  pose proof (rubric_rows_app picked items [] pre [] w) as H.
  rewrite !app_nil_r in H.
  rewrite (H Hw Hv (keys_free_nodup _ Hnd)). reflexivity.
Qed.

(** The row at which the loop stops, after rows of valid statuses and
    distinct keys: with a status that is no option, [.index] raises
    before the key is looked at; with a valid status and the key of an
    earlier row, the widget is refused. *)
Lemma rubric_rows_stop (picked : nat -> option string)
    (pre : list RubricItem) (item : RubricItem) (rest : list RubricItem)
    (w : App) :
  rubric (ss w) = (pre ++ item :: rest)%list ->
  forallb valid_status pre = true ->
  NoDup (map widget_key pre) ->
  (valid_status item = false \/ In (widget_key item) (map widget_key pre)) ->
  rubric_rows picked 0 [] (pre ++ item :: rest)%list w
  = (Raise (if valid_status item then DuplicateWidgetID else ValueError),
     mkApp (set_rubric (rows_after picked 0 pre ++ item :: rest)%list (ss w))
       (page w)).
Proof.
  intros Hw Hv Hnd Hstop.
  pose proof (rubric_rows_app picked pre (item :: rest) [] [] w) as H.
  cbn [app length] in H. rewrite (H Hw Hv (keys_free_nodup _ Hnd)).
  cbn [rubric_rows]. unfold bind at 1, lift.
  destruct (valid_status item) eqn:Hi.
  - destruct Hstop as [Hstop|Hin]; [discriminate|].
    destruct (list_index_valid item Hi) as (i & -> & _).
    unfold bind at 1, selectbox.
    assert (Hk : existsb (String.eqb (widget_key item))
                   (rev (map widget_key pre) ++ [])%list = true).
    { apply existsb_eqb_In. rewrite app_nil_r. apply in_rev.
      now rewrite rev_involutive. }
    rewrite Hk. reflexivity.
  - rewrite (list_index_invalid item Hi). reflexivity.
Qed.




(* ------------------------------------------------------------------ *)
(** ** Further properties of the script *)

(** *** Loading *)

Lemma load_handler_run (b : bytes) (w : App) :
  load_handler (Some b) w
  = match restore b w with
    | (Ok u, w') => (Ok u, w')
    | (Raise e, w') =>
        (Ok tt, mkApp (ss w') (page w' ++ [st_error "Failed to load session: " e])%list)
    end.
Proof.
  unfold load_handler, try_except. destruct (restore b w) as [[u|e] w'];
    reflexivity.
Qed.

(** X1.  The document of "Save session to local JSON" round-trips in
    full: for a session with user details the dict is built, and loading
    its bytes into any session restores the transcript, the rubric and
    the user details of the saved session, whatever the loading session
    held. *)
Theorem footer_dump_roundtrip (s : SessionState) (u : UserDetails) (w : App) :
  user_details s = Some u ->
  exists doc,
    footer_dump s = Ok doc
    /\ let w' := run (load_handler (Some (save_session_to_bytes doc))) w in
       transcript (ss w') = transcript s
       /\ rubric (ss w') = rubric s
       /\ user_details (ss w') = Some u
       /\ session_status (ss w') = "ended".
Proof.
  intros Hu. unfold footer_dump. rewrite Hu. eexists. split; [reflexivity|].
  unfold run. rewrite load_handler_run, restore_run.
  unfold load_session_from_bytes, save_session_to_bytes.
  rewrite decode_encode_utf8. cbn [rbind]. rewrite loads_dumps.
  unfold restored_transcript, restored_rubric. cbn [py_get dict_get String.eqb
    Ascii.eqb Bool.eqb rbind py_iter].
  rewrite (rmap_init_asdict _ _ _ TranscriptEntry_init_asdict). cbn [rbind].
  rewrite (rmap_init_asdict _ _ _ RubricItem_init_asdict). cbv zeta.
  cbn [asdict_UserDetails truthy].
  change (PDict [("name", name u); ("phone", phone u);
                 ("designation", designation u)])
    with (asdict_UserDetails u).
  rewrite UserDetails_init_asdict. cbn. repeat split.
Qed.

(** X2.  The upload handler never reads the [summary] of the document
    and never writes the summary of the store: whatever the payload,
    and whether the load succeeds or fails, the summary, the pending
    suggestion, the saved session, the start time and the duration of
    the store are the ones from before. *)
Theorem load_keeps_summary_and_suggestion (b : bytes) (w : App) :
  let w' := run (load_handler (Some b)) w in
  summary_text (ss w') = summary_text (ss w)
  /\ suggested_update (ss w') = suggested_update (ss w)
  /\ saved_session (ss w') = saved_session (ss w)
  /\ start_time (ss w') = start_time (ss w)
  /\ duration_seconds (ss w') = duration_seconds (ss w).
Proof.
  unfold run. rewrite load_handler_run, restore_run.
  destruct (load_session_from_bytes b) as [data|e]; [|cbn; auto].
  destruct (restored_transcript data) as [tr|e]; [|cbn; auto].
  destruct (restored_rubric data) as [ru|e]; [|cbn; auto 6].
  cbv zeta.
  destruct (py_get data "user_details" PNone) as [ud|e]; [|cbn; auto 6].
  destruct (truthy ud); [|cbn; auto 6].
  destruct (UserDetails_init ud) as [u|e]; cbn; auto 6.
Qed.

(** X3.  A summary made before a load outlives it: when the store holds
    a summary and a load succeeds, the "Session Summary" block that
    follows finds the session ended and a summary present, and keeps
    that summary instead of making one for the loaded transcript and
    rubric. *)
Theorem summary_survives_load (b : bytes) (w : App) (old : string) :
  summary_text (ss w) = Some old ->
  fst (restore b w) = Ok tt ->
  let w1 := run (load_handler (Some b)) w in
  session_status (ss w1) = "ended"
  /\ summary_text (ss w1) = Some old
  /\ session_summary w1 = (Ok tt, w1).
Proof.
  intros Hold Hok.
  assert (H : exists tr ru ud,
             restore b w
             = (Ok tt, mkApp (loaded tr ru ud (ss w))
                  (page w ++ [st_success "Session loaded from file."])%list)).
  { revert Hok. rewrite restore_run.
    destruct (load_session_from_bytes b) as [data|e]; [|discriminate].
    destruct (restored_transcript data) as [tr|e]; [|discriminate].
    destruct (restored_rubric data) as [ru|e]; [|discriminate].
    cbv zeta.
    destruct (py_get data "user_details" PNone) as [ud|e]; [|discriminate].
    destruct (truthy ud); [|eauto].
    destruct (UserDetails_init ud) as [u|e]; [eauto | discriminate]. }
  destruct H as (tr & ru & ud & H).
  unfold run. rewrite load_handler_run, H. cbn [snd ss].
  assert (Hs : summary_text (loaded tr ru ud (ss w)) = Some old).
  { unfold loaded. destruct ud; exact Hold. }
  assert (Hst : session_status (loaded tr ru ud (ss w)) = "ended").
  { unfold loaded. destruct ud; reflexivity. }
  split; [exact Hst|]. split; [exact Hs|].
  unfold session_summary, bind, read. cbn [ss]. rewrite Hst.
  cbn [String.eqb Ascii.eqb Bool.eqb ss]. rewrite Hs. reflexivity.
Qed.

(** X4.  A document without the [transcript], [rubric] and
    [user_details] keys is not rejected: the missing lists default to
    empty ones, so the load succeeds and empties the transcript and the
    rubric of the store. *)
Theorem load_without_keys_clears (b : bytes) (d : list (string * pyval))
    (w : App) :
  load_session_from_bytes b = Ok (PDict d) ->
  dict_get "transcript" d = None ->
  dict_get "rubric" d = None ->
  dict_get "user_details" d = None ->
  let w' := run (load_handler (Some b)) w in
  transcript (ss w') = []
  /\ rubric (ss w') = []
  /\ user_details (ss w') = user_details (ss w)
  /\ session_status (ss w') = "ended"
  /\ page w' = (page w ++ [st_success "Session loaded from file."])%list.
Proof.
  intros Hl Ht Hr Hu. unfold run. rewrite load_handler_run, restore_run, Hl.
  unfold restored_transcript, restored_rubric, py_get. rewrite Ht, Hr, Hu.
  cbn. repeat split.
Qed.

(** X5.  A payload that is valid JSON but not an object (a list, a
    string, a number, [null]) is rejected with [AttributeError], the
    error is reported, and the store is left as it was. *)
Theorem load_rejects_non_object (b : bytes) (v : pyval) (w : App) :
  load_session_from_bytes b = Ok v ->
  not_an_object v = true ->
  fst (restore b w) = Raise AttributeError
  /\ run (load_handler (Some b)) w
     = mkApp (ss w)
         (page w ++ [st_error "Failed to load session: " AttributeError])%list.
Proof.
  intros Hl Hv. unfold run. rewrite load_handler_run, restore_run, Hl.
  destruct v; try discriminate; cbn; split; reflexivity.
Qed.

Lemma kwargs_unexpected (fields : list string) (entry : pyval) :
  unexpected_key fields entry = true -> kwargs fields entry = Raise TypeError.
Proof.
  destruct entry as [| | | | | |kw]; try discriminate.
  unfold unexpected_key, kwargs. intros H.
  destruct (forallb _ (dict_keys kw)) eqn:E; [|reflexivity].
  apply existsb_exists in H. destruct H as (k & Hk & Hn).
  rewrite forallb_forall in E. rewrite (E k Hk) in Hn. discriminate.
Qed.

(** X6.  The dataclass constructors take no extra fields: a document in
    which a transcript entry or a rubric item carries a key that is not
    a field of its dataclass is rejected, the rubric of the store is the
    one from before, and for an extra key in a transcript entry the
    whole store is. *)
Theorem load_rejects_unexpected_key (b : bytes) (d : list (string * pyval))
    (entries : list pyval) (entry : pyval) (w : App) :
  load_session_from_bytes b = Ok (PDict d) ->
  In entry entries ->
  (dict_get "transcript" d = Some (PList entries)
   /\ unexpected_key ["speaker"; "text"; "ts"] entry = true)
  \/ (dict_get "rubric" d = Some (PList entries)
      /\ unexpected_key ["id"; "skill"; "status"] entry = true) ->
  exists e,
    fst (restore b w) = Raise e
    /\ let w' := run (load_handler (Some b)) w in
       page w' = (page w ++ [st_error "Failed to load session: " e])%list
       /\ rubric (ss w') = rubric (ss w)
       /\ (dict_get "transcript" d = Some (PList entries)
           /\ unexpected_key ["speaker"; "text"; "ts"] entry = true ->
           ss w' = ss w).
Proof.
  intros Hl Hin H. unfold run. rewrite load_handler_run, restore_run, Hl.
  destruct H as [[Hd Hk]|[Hd Hk]].
  - assert (Ht : exists e, restored_transcript (PDict d) = Raise e).
    { unfold restored_transcript, py_get. rewrite Hd. cbn.
      apply (rmap_raise _ _ entry TypeError Hin).
      unfold TranscriptEntry_init. now rewrite kwargs_unexpected. }
    destruct Ht as [e ->]. exists e. cbn. auto.
  - assert (Hr : exists e, restored_rubric (PDict d) = Raise e).
    { unfold restored_rubric, py_get. rewrite Hd. cbn.
      apply (rmap_raise _ _ entry TypeError Hin).
      unfold RubricItem_init. now rewrite kwargs_unexpected. }
    destruct Hr as [e Hr]. rewrite Hr.
    destruct (restored_transcript (PDict d)) as [tr|e'] eqn:Htr.
    + exists e. cbn. repeat split; auto.
      intros [Hd' Hk']. exfalso.
      unfold restored_transcript, py_get in Htr. rewrite Hd' in Htr.
      cbn in Htr.
      destruct (rmap_raise TranscriptEntry_init entries entry TypeError Hin)
        as [e0 He0].
      * unfold TranscriptEntry_init. now rewrite kwargs_unexpected.
      * congruence.
    + exists e'. cbn. auto.
Qed.

(** *** The rubric loop *)


Lemma rubric_rows_invalid (picked : nat -> option string)
    (items : list RubricItem) :
  forallb valid_status items = false ->
  forall idx keys w,
  exists e,
    fst (rubric_rows picked idx keys items w) = Raise e
    /\ (e = ValueError \/ e = DuplicateWidgetID)
    /\ (keys_free keys (map widget_key items) = true -> e = ValueError).
Proof.
  induction items as [|item items IH]; [discriminate|].
  cbn [forallb]. intros H idx keys w. cbn [rubric_rows map keys_free].
  unfold bind at 1, lift.
  destruct (valid_status item) eqn:Hv.
  - destruct (list_index_valid item Hv) as (i & -> & _).
    unfold bind at 1, selectbox.
    destruct (existsb (String.eqb (widget_key item)) keys) eqn:Hk.
    + exists DuplicateWidgetID.
      split; [reflexivity|]. split; [now right | discriminate].
    + unfold bind at 1, write. cbn [fst snd negb andb].
      apply IH. exact H.
  - rewrite (list_index_invalid item Hv). exists ValueError.
    split; [reflexivity|]. split; [now left | reflexivity].
Qed.

(** X7.  The rubric loop looks the status of each item up among the
    three options: when some item of the rubric has a status that is
    none of ["pending"], ["met"], ["not_met"] (the upload handler lets
    any value through), the loop does not return, whatever the user
    picked.  It raises [ValueError], or [DuplicateWidgetID] when an
    earlier row repeats a widget key; it raises [ValueError] when the
    keys of the rows are distinct.  At the first row with such a
    status, after rows of valid statuses and distinct keys, it raises
    [ValueError] with the rows before already written. *)
Theorem rubric_loop_rejects_foreign_status (picked : nat -> option string)
    (w : App) :
  forallb valid_status (rubric (ss w)) = false ->
  (fst (rubric_selectboxes picked w) = Raise ValueError
   \/ fst (rubric_selectboxes picked w) = Raise DuplicateWidgetID)
  /\ (NoDup (map widget_key (rubric (ss w))) ->
      fst (rubric_selectboxes picked w) = Raise ValueError)
  /\ (forall pre item rest,
         rubric (ss w) = (pre ++ item :: rest)%list ->
         forallb valid_status pre = true ->
         NoDup (map widget_key pre) ->
         valid_status item = false ->
         rubric_selectboxes picked w
         = (Raise ValueError,
            mkApp
              (set_rubric (rows_after picked 0 pre ++ item :: rest)%list (ss w))
              (page w))).
Proof.
  intros H. unfold rubric_selectboxes, bind, read.
  destruct (rubric_rows_invalid picked (rubric (ss w)) H 0 [] w)
    as (e & He & Hany & Hfree).
  split; [destruct Hany; subst e; [left | right]; exact He|]. split.
  - intros Hnd. rewrite He, (Hfree (keys_free_nodup _ Hnd)). reflexivity.
  - intros pre item rest Hw Hv Hnd Hi.
    pose proof (rubric_rows_stop picked pre item rest w Hw Hv Hnd
                  (or_introl Hi)) as Hstop.
    rewrite Hi in Hstop. rewrite Hw. exact Hstop.
Qed.

(** X18.  Streamlit refuses two widgets with one key.  At the first
    row whose key [rubric_<id>] is the key of an earlier row, after
    rows of valid statuses and distinct keys, and when the status of
    that row is a valid one, the loop raises [DuplicateWidgetID] with
    the rows before already written. *)
Theorem rubric_loop_rejects_duplicate_key (picked : nat -> option string)
    (w : App) (pre : list RubricItem) (item : RubricItem)
    (rest : list RubricItem) :
  rubric (ss w) = (pre ++ item :: rest)%list ->
  forallb valid_status pre = true ->
  NoDup (map widget_key pre) ->
  valid_status item = true ->
  In (widget_key item) (map widget_key pre) ->
  rubric_selectboxes picked w
  = (Raise DuplicateWidgetID,
     mkApp (set_rubric (rows_after picked 0 pre ++ item :: rest)%list (ss w))
       (page w)).
Proof.
  intros Hw Hv Hnd Hi Hin. unfold rubric_selectboxes, bind, read.
  pose proof (rubric_rows_stop picked pre item rest w Hw Hv Hnd
                (or_intror Hin)) as Hstop.
  rewrite Hi in Hstop. rewrite Hw. exact Hstop.
Qed.

Lemma rows_after_none (picked : nat -> option string) :
  (forall j, picked j = None) ->
  forall items k, rows_after picked k items = items.
Proof.
  intros Hp. induction items as [|item items IH]; intros k; cbn;
    [reflexivity|].
  unfold row_status. rewrite Hp, set_status_same, IH. reflexivity.
Qed.

Lemma set_rubric_same (s : SessionState) : set_rubric (rubric s) s = s.
Proof. destruct s; reflexivity. Qed.

Lemma mkApp_eta (w : App) : mkApp (ss w) (page w) = w.
Proof. destruct w; reflexivity. Qed.

(** X8.  Drawing the rubric without touching a selectbox changes
    nothing: on a rubric whose statuses are among the three options
    and whose rows have distinct widget keys [rubric_<id>], the loop
    with no pick returns and leaves the store and the page as they
    were. *)
Theorem rubric_loop_without_pick (w : App) :
  forallb valid_status (rubric (ss w)) = true ->
  NoDup (map widget_key (rubric (ss w))) ->
  rubric_selectboxes (fun _ => None) w = (Ok tt, w).
Proof.
  intros Hv Hnd. unfold rubric_selectboxes, bind, read.
  pose proof (rubric_rows_valid (fun _ => None) (rubric (ss w)) [] w
                eq_refl Hv Hnd) as H.
  cbn [app length] in H. rewrite H.
  rewrite rows_after_none by reflexivity.
  now rewrite set_rubric_same, mkApp_eta.
Qed.

(** *** The email report *)

Lemma in_user_ai_who (e : TranscriptEntry) :
  in_user_ai e = true ->
  who e = Ok (if spoken_by "user" e then "Student" else "Examiner").
Proof.
  unfold in_user_ai, who, spoken_by. rewrite !py_eq_str_l, !py_eq_str_r.
  destruct (speaker e); try discriminate.
  rewrite (String.eqb_sym "user" s), (String.eqb_sym "ai" s).
  destruct (String.eqb s "user"); [reflexivity|].
  destruct (String.eqb s "ai"); [reflexivity | discriminate].
Qed.

Lemma filter_idem {A} (p : A -> bool) (xs : list A) :
  filter p (filter p xs) = filter p xs.
Proof.
  induction xs as [|x xs IH]; cbn; [reflexivity|].
  destruct (p x) eqn:E; cbn; [rewrite E, IH|]; auto.
Qed.

(** X12.  [format_transcript_for_email] never raises, whatever the
    transcript holds: it reports the entries whose speaker is ["user"]
    or ["ai"], in order, one paragraph each, headed "Student" or
    "Examiner" and separated by a blank line.  The entries of other
    speakers (the system notes of snapshots and suggestions) do not
    change the text, and the [capitalize] branch of [who] is never
    taken. *)
Theorem format_transcript_for_email_dialogue
    (transcript : list TranscriptEntry) :
  format_transcript_for_email transcript
  = Ok (String.concat (LF ++ LF) (map paragraph (filter in_user_ai transcript)))
  /\ format_transcript_for_email (filter in_user_ai transcript)
     = format_transcript_for_email transcript.
Proof.
  assert (H : forall tr,
             format_transcript_for_email tr
             = Ok (String.concat (LF ++ LF)
                     (map paragraph (filter in_user_ai tr)))).
  { intros tr. unfold format_transcript_for_email.
    rewrite (rmap_ok _ paragraph); [reflexivity|].
    intros e He. apply filter_In in He. destruct He as [_ He].
    rewrite (in_user_ai_who e He). reflexivity. }
  split; [apply H|]. rewrite !H, filter_idem. reflexivity.
Qed.

Lemma status_label_valid (r : RubricItem) :
  valid_status r = true -> status_label r = Ok (status_name r).
Proof.
  unfold valid_status, status_label, status_name, has_status, str_method.
  destruct (status r); try discriminate.
  destruct (String.eqb_spec s "pending") as [->|_]; [reflexivity|].
  destruct (String.eqb_spec s "met") as [->|_]; [reflexivity|].
  destruct (String.eqb_spec s "not_met") as [->|_]; [reflexivity|].
  discriminate.
Qed.

(** X13.  On a rubric whose statuses are among the three options,
    [format_rubric_for_email] returns one line per item, in rubric
    order, of the form "- <skill>: <label>", where the label is
    "Pending", "Met" or "Not Met" (the underscore replaced by a space,
    each word capitalised); the lines are joined by single newlines. *)
Theorem format_rubric_for_email_valid (rubric : list RubricItem) :
  forallb valid_status rubric = true ->
  format_rubric_for_email rubric
  = Ok (String.concat LF
          (map (fun r => "- " ++ format_value (skill r) ++ ": " ++ status_name r)
             rubric)).
Proof.
  intros Hv. unfold format_rubric_for_email.
  rewrite (rmap_ok _ (fun r => "- " ++ format_value (skill r) ++ ": "
                               ++ status_name r)); [reflexivity|].
  intros r Hr. rewrite forallb_forall in Hv.
  rewrite (status_label_valid r (Hv r Hr)). reflexivity.
Qed.

Lemma rmap_raise_all {A B} (f : A -> result B) (xs : list A) (x : A) (e : exn) :
  In x xs -> f x = Raise e ->
  (forall y e', f y = Raise e' -> e' = e) ->
  rmap f xs = Raise e.
Proof.
  intros Hin Hx Hall. destruct (rmap_raise f xs x e Hin Hx) as [e' He'].
  rewrite He'. f_equal.
  clear Hin Hx. revert He'. induction xs as [|y xs IH]; cbn; [discriminate|].
  destruct (f y) as [b|e0] eqn:Ey; cbn.
  - destruct (rmap f xs) as [bs|e1]; cbn; [discriminate|].
    intros [= <-]. now apply IH.
  - intros [= <-]. now apply (Hall y).
Qed.

(** X14.  [format_rubric_for_email] calls [replace] on each status: as
    soon as one item of the rubric has a status that is not a string,
    it raises [AttributeError]. *)
Theorem format_rubric_for_email_non_str (rubric : list RubricItem)
    (r : RubricItem) :
  In r rubric ->
  is_str (status r) = false ->
  format_rubric_for_email rubric = Raise AttributeError.
Proof.
  intros Hin Hs. unfold format_rubric_for_email.
  rewrite (rmap_raise_all _ rubric r AttributeError Hin); [reflexivity| |].
  - unfold status_label, str_method. destruct (status r); try reflexivity.
    discriminate.
  - intros y e'. unfold status_label, str_method.
    destruct (status y); cbn; congruence.
Qed.

(** *** Trimming *)

Lemma lstrip_shape (s : string) :
  lstrip s = "" \/ exists c r, lstrip s = String c r /\ isspace c = false.
Proof.
  induction s as [|c s IH]; cbn; [now left|].
  destruct (isspace c) eqn:E; [exact IH | right; eauto].
Qed.

Lemma rstrip_idem (s : string) : rstrip (rstrip s) = rstrip s.
Proof.
  induction s as [|c s IH]; cbn; [reflexivity|].
  destruct (isspace c && String.eqb (rstrip s) "") eqn:E; [reflexivity|].
  cbn. rewrite IH, E. reflexivity.
Qed.

Lemma strip_idem (s : string) : strip (strip s) = strip s.
Proof.
  unfold strip. destruct (lstrip_shape s) as [->|(c & r & -> & Hc)];
    [reflexivity|].
  cbn [rstrip]. rewrite Hc. cbn [andb lstrip]. rewrite Hc.
  cbn [rstrip]. rewrite Hc, rstrip_idem. reflexivity.
Qed.

Lemma lstrip_decomp (s : string) :
  exists pre, s = pre ++ lstrip s /\ all_space pre = true.
Proof.
  induction s as [|c s (pre & Hs & Hp)]; cbn [lstrip].
  - exists "". split; reflexivity.
  - destruct (isspace c) eqn:E.
    + exists (String c pre). cbn. rewrite E, Hp, <- Hs. split; reflexivity.
    + exists "". split; reflexivity.
Qed.

Lemma rstrip_decomp (s : string) :
  exists post, s = rstrip s ++ post /\ all_space post = true.
Proof.
  induction s as [|c s (post & Hs & Hp)]; cbn [rstrip].
  - exists "". split; reflexivity.
  - destruct (isspace c && String.eqb (rstrip s) "") eqn:E.
    + apply andb_prop in E. destruct E as [Hc Hr].
      apply String.eqb_eq in Hr. rewrite Hr in Hs. cbn in Hs.
      exists (String c post). cbn. rewrite Hc, Hp, <- Hs. split; reflexivity.
    + exists post. cbn. rewrite <- Hs. split; [reflexivity | exact Hp].
Qed.

Lemma rstrip_last (s : string) :
  rstrip s = ""
  \/ exists c, last_char (rstrip s) = Some c /\ isspace c = false.
Proof.
  induction s as [|c s IH]; cbn [rstrip]; [now left|].
  destruct (isspace c && String.eqb (rstrip s) "") eqn:E; [now left|].
  right. destruct IH as [Hr|(c' & Hl & Hc')].
  - rewrite Hr in *. cbn in E. rewrite andb_true_r in E.
    exists c. split; [reflexivity | exact E].
  - exists c'. split; [|exact Hc'].
    destruct (rstrip s); [discriminate | exact Hl].
Qed.

Lemma strip_first (s : string) :
  strip s = ""
  \/ exists c, first_char (strip s) = Some c /\ isspace c = false.
Proof.
  unfold strip. destruct (lstrip_shape s) as [->|(c & r & -> & Hc)];
    [now left|].
  right. cbn [rstrip]. rewrite Hc. cbn [andb first_char]. eauto.
Qed.

(** X16.  What the transcript form appends is [text.strip()]: when the
    text is not blank, the new entry is the last one of the transcript
    and carries the chosen speaker, the trimmed text and the time.  The
    trimmed text is the text without a prefix and a suffix of white
    space; it is not empty, its first and its last character are no
    white space, and trimming it again changes nothing. *)
Theorem add_transcript_appends_trimmed (sp tx : string) (now : spec_float)
    (w : App) :
  nonblank (sp, tx, now) = true ->
  transcript (ss (run (add_transcript sp tx now) w))
  = (transcript (ss w)
     ++ [mkTranscriptEntry (PStr sp) (PStr (strip tx)) (PFloat now)])%list
  /\ (exists pre post,
         tx = pre ++ strip tx ++ post
         /\ all_space pre = true /\ all_space post = true)
  /\ strip tx <> ""
  /\ (exists c, first_char (strip tx) = Some c /\ isspace c = false)
  /\ (exists c, last_char (strip tx) = Some c /\ isspace c = false)
  /\ strip (strip tx) = strip tx.
Proof.
  intros H.
  assert (Hne : strip tx <> "").
  { unfold nonblank in H. cbn in H. intros E. rewrite E in H. discriminate. }
  split; [|split; [|split; [|split; [|split]]]].
  - unfold run. rewrite add_transcript_run, H. reflexivity.
  - destruct (lstrip_decomp tx) as (pre & Hpre & Hp).
    destruct (rstrip_decomp (lstrip tx)) as (post & Hpost & Hq).
    exists pre, post. split; [|split; [exact Hp | exact Hq]].
    unfold strip. rewrite <- Hpost. exact Hpre.
  - exact Hne.
  - destruct (strip_first tx) as [E|Hc]; [contradiction | exact Hc].
  - destruct (rstrip_last (lstrip tx)) as [E|Hc]; [contradiction | exact Hc].
  - apply strip_idem.
Qed.

(** *** The welcome form and the session buttons *)

(** X15.  The welcome form checks the name for emptiness only.  With an
    empty name it shows a warning and changes nothing.  With any other
    name (one of blanks among them, which is not trimmed here) it stores
    the three texts as entered, sets the status to ["idle"], and stores
    the duration in seconds, sixty times the minutes, which the number
    input keeps between 1 and 180: between 60 and 10800. *)
Theorem welcome_form_effect (name_input phone_input designation_input : string)
    (duration : Z) (w : App) :
  user_details (ss w) = None ->
  (name_input = "" ->
   welcome_form name_input phone_input designation_input duration w
   = (Ok tt, mkApp (ss w) (page w ++ [st_warning "Please enter name."])%list))
  /\ (name_input <> "" ->
      (1 <= duration <= 180)%Z ->
      let w' := run (welcome_form name_input phone_input designation_input
                       duration) w in
      user_details (ss w')
      = Some (mkUserDetails (PStr name_input) (PStr phone_input)
                (PStr designation_input))
      /\ session_status (ss w') = "idle"
      /\ page w' = page w
      /\ exists seconds,
           duration_seconds (ss w') = Some seconds
           /\ (seconds = duration * 60)%Z
           /\ (60 <= seconds <= 10800)%Z).
Proof.
  intros Hud. unfold run, welcome_form, bind, read. rewrite Hud. split.
  - intros ->. reflexivity.
  - intros Hn Hd. cbn [truthy].
    destruct (String.eqb_spec name_input "") as [E|_]; [contradiction|].
    cbn. repeat split. exists (duration * 60)%Z. repeat split; lia.
Qed.

Lemma fresh_rubric_ok : fresh_rubric = Ok INITIAL_RUBRIC.
Proof. reflexivity. Qed.

(** X17.  A session that is started and ended at once has a summary
    with no section: after "Start New Session" (for a session that is
    not live) and "End Session", the transcript is empty, the rubric is
    the initial one, the status is ["ended"], and the summary is the
    greeting and the closing sentence, a blank line apart. *)
Theorem start_then_end_summary (now : spec_float) (w : App) :
  session_status (ss w) <> "live" ->
  let w' := run end_session (run (start_new_session now) w) in
  summary_text (ss w')
  = Some (String.concat (LF ++ LF)
            ["Dear " ++ participant (ss w) ++ ","; closing_sentence])
  /\ session_status (ss w') = "ended"
  /\ transcript (ss w') = []
  /\ rubric (ss w') = INITIAL_RUBRIC
  /\ start_time (ss w') = Some now.
Proof.
  intros Hlive. unfold run, start_new_session, end_session, bind, read.
  destruct (String.eqb_spec (session_status (ss w)) "live") as [E|_];
    [contradiction|].
  cbn [negb]. unfold lift, write. rewrite fresh_rubric_ok. cbn [ss page snd].
  cbn [session_status set_session_status set_start_time set_summary_text
       set_suggested_update set_rubric set_transcript String.eqb Ascii.eqb
       Bool.eqb].
  cbn [ss page snd transcript rubric user_details].
  unfold generate_local_summary, participant. cbn [user_details].
  cbn. split; [destruct (user_details (ss w)); reflexivity | repeat split].
Qed.

(** *** Sessions driven from the page *)

Lemma generate_local_summary_typed (s : SessionState)
    (transcript : list TranscriptEntry) (rubric : list RubricItem) :
  forallb (fun r => is_str (skill r)) rubric = true ->
  forallb (fun t => is_str (text t)) transcript = true ->
  generate_local_summary s transcript rubric
  = Ok (summary_spec (participant s) transcript rubric).
Proof.
  intros Hskill Htext. unfold generate_local_summary.
  rewrite !filter_met, filter_speaker, recent_lines.
  rewrite summary_step
    by (apply (forallb_map_filter is_str skill); exact Hskill).
  cbn [rbind].
  rewrite summary_step
    by (apply (forallb_map_filter is_str skill); exact Hskill).
  cbn [rbind].
  rewrite summary_step.
  2:{ rewrite <- slice_last_last_n. apply forallb_skipn.
      apply (forallb_map_filter is_str text). exact Htext. }
  cbn [rbind]. unfold summary_spec, summary_sections, append.
  rewrite last_n_map, !map_map.
  do 2 f_equal. cbn [app]. rewrite <- !app_assoc. reflexivity.
Qed.

Lemma forallb_map {A B} (p : B -> bool) (f : A -> B) (xs : list A) :
  forallb p (map f xs) = forallb (fun x => p (f x)) xs.
Proof. induction xs; cbn; [reflexivity | now rewrite IHxs]. Qed.

Lemma valid_status_set (v : string) (r : RubricItem) :
  In v status_options -> valid_status (set_status (PStr v) r) = true.
Proof.
  intros [<-|[<-|[<-|[]]]]; reflexivity.
Qed.

Lemma rows_after_id (picked : nat -> option string) (items : list RubricItem) :
  forall k, map id (rows_after picked k items) = map id items
            /\ map skill (rows_after picked k items) = map skill items.
Proof.
  induction items as [|item items IH]; intros k; cbn; [auto|].
  destruct (IH (S k)) as [-> ->]. auto.
Qed.

Lemma rows_after_valid (picked : nat -> option string) :
  (forall idx v, picked idx = Some v -> In v status_options) ->
  forall items k,
    forallb valid_status items = true ->
    forallb valid_status (rows_after picked k items) = true.
Proof.
  intros Hp. induction items as [|item items IH]; intros k H; cbn;
    [reflexivity|].
  cbn in H. apply andb_prop in H. destruct H as [Hi Hs].
  rewrite (IH (S k) Hs), andb_true_r. unfold row_status.
  destruct (picked k) as [v|] eqn:E.
  - apply valid_status_set. exact (Hp k v E).
  - now rewrite set_status_same.
Qed.

Lemma map_status_id (f : RubricItem -> RubricItem) (items : list RubricItem) :
  (forall r, id (f r) = id r /\ skill (f r) = skill r) ->
  map id (map f items) = map id items
  /\ map skill (map f items) = map skill items.
Proof.
  intros Hf. rewrite !map_map. split; apply map_ext; intros r; apply Hf.
Qed.

Lemma map_status_valid (f : RubricItem -> RubricItem)
    (items : list RubricItem) :
  (forall r, valid_status r = true -> valid_status (f r) = true) ->
  forallb valid_status items = true ->
  forallb valid_status (map f items) = true.
Proof.
  intros Hf. induction items as [|r items IH]; cbn; [reflexivity|].
  intros H. apply andb_prop in H. destruct H as [Hr Hs].
  now rewrite (Hf r Hr), IH.
Qed.

Lemma ui_session_frame (s s' : SessionState) :
  rubric s' = rubric s ->
  suggested_update s' = suggested_update s ->
  transcript s' = transcript s ->
  ui_session s -> ui_session s'.
Proof. unfold ui_session. intros -> -> ->. auto. Qed.

Lemma forallb_append {A} (p : A -> bool) (xs : list A) (x : A) :
  forallb p xs = true -> p x = true -> forallb p (append xs x) = true.
Proof.
  intros Hxs Hx. unfold append. rewrite forallb_app, Hxs. cbn. now rewrite Hx.
Qed.

Lemma ui_session_summary (s : SessionState) :
  ui_session s ->
  generate_local_summary s (transcript s) (rubric s)
  = Ok (summary_spec (participant s) (transcript s) (rubric s)).
Proof.
  intros (_ & Hsk & _ & _ & Htx). apply generate_local_summary_typed;
    [|exact Htx].
  rewrite <- (forallb_map is_str skill), Hsk. reflexivity.
Qed.

Lemma ui_session_keys (s : SessionState) :
  ui_session s -> NoDup (map widget_key (rubric s)).
Proof.
  intros (Hi & _).
  replace (map widget_key (rubric s))
    with (map (fun i => "rubric_" ++ format_value i) (map id (rubric s)))
    by (rewrite map_map; reflexivity).
  rewrite Hi. apply (keys_free_spec _ []). reflexivity.
Qed.

Lemma perform_keeps_ui_session (a : action) (w : App) :
  from_widgets a -> is_upload a = false ->
  ui_session (ss w) -> ui_session (ss (run (perform a) w)).
Proof.
  intros Hw Hup Hinv. destruct a; cbn [perform]; try discriminate.
  - (* Welcome *)
    unfold run, welcome_form, bind, read.
    destruct (user_details (ss w)); [exact Hinv|].
    destruct (negb _); cbn; (eapply ui_session_frame; [..|exact Hinv]);
      reflexivity.
  - (* StartNewSession *)
    unfold run, start_new_session, bind, read.
    destruct (negb _); [|exact Hinv].
    unfold lift, write. rewrite fresh_rubric_ok. cbn.
    unfold ui_session. cbn. auto.
  - (* EndSession *)
    unfold run, end_session, bind, read.
    destruct (String.eqb _ _); [|exact Hinv].
    unfold write, lift. cbn [ss page].
    assert (H1 : ui_session (set_session_status "ended" (ss w))).
    { eapply ui_session_frame; [..|exact Hinv]; reflexivity. }
    rewrite (ui_session_summary _ H1). cbn [snd ss show].
    eapply ui_session_frame; [..|exact Hinv]; reflexivity.
  - (* Snapshot *)
    unfold run, camera_snapshot, bind, write, show. cbn.
    destruct Hinv as (Hi & Hs & Hv & Hsu & Ht).
    unfold ui_session. cbn. repeat split; auto.
    apply forallb_append; [exact Ht | reflexivity].
  - (* AddTranscript *)
    unfold run. rewrite add_transcript_run. cbn [snd].
    destruct (nonblank _); [|exact Hinv].
    destruct Hinv as (Hi & Hs & Hv & Hsu & Ht).
    unfold ui_session. cbn. repeat split; auto.
    apply forallb_append; [exact Ht | reflexivity].
  - (* RubricRows *)
    pose proof (ui_session_keys _ Hinv) as Hnd.
    destruct Hinv as (Hi & Hs & Hv & Hsu & Ht).
    unfold run, rubric_selectboxes, bind, read.
    pose proof (rubric_rows_valid picked (rubric (ss w)) [] w eq_refl Hv Hnd)
      as H.
    cbn [app length] in H. rewrite H. cbn [snd ss].
    destruct (rows_after_id picked (rubric (ss w)) 0) as [Hi' Hs'].
    unfold ui_session. cbn. rewrite Hi', Hs'. repeat split; auto.
    apply rows_after_valid; [exact Hw | exact Hv].
  - (* ProposeSuggestion *)
    destruct Hinv as (Hi & Hs & Hv & Hsu & Ht).
    unfold ui_session. cbn. repeat split; auto.
  - (* AcceptSuggestion *)
    unfold run, accept_suggestion, bind, read.
    destruct (suggested_update (ss w)) as [su|] eqn:E; [|exact Hinv].
    destruct Hinv as (Hi & Hs & Hv & Hsu & Ht). rewrite E in Hsu.
    cbn. unfold ui_session. cbn. unfold apply_suggestion.
    destruct (map_status_id
                (fun r => if py_eq (id r) (skillId su)
                          then set_status (PStr (sug_status su)) r else r)
                (rubric (ss w))) as [-> ->].
    { intros r. destruct (py_eq (id r) (skillId su)); auto. }
    repeat split; auto.
    + apply map_status_valid; [|exact Hv].
      intros r Hr. destruct (py_eq (id r) (skillId su)); [|exact Hr].
      apply valid_status_set. cbn in Hsu. cbn. tauto.
    + apply forallb_append; [exact Ht | reflexivity].
  - (* RejectSuggestion *)
    unfold run, reject_suggestion, bind, read.
    destruct (suggested_update (ss w)) as [su|] eqn:E; [|exact Hinv].
    destruct Hinv as (Hi & Hs & Hv & Hsu & Ht). rewrite E in Hsu.
    cbn. unfold ui_session. cbn. repeat split; auto.
    apply forallb_append; [exact Ht | reflexivity].
  - (* SessionSummary *)
    unfold run, session_summary, bind, read.
    destruct (String.eqb _ _); [|exact Hinv].
    destruct (summary_text (ss w)); [exact Hinv|].
    unfold lift. rewrite (ui_session_summary _ Hinv). cbn.
    eapply ui_session_frame; [..|exact Hinv]; reflexivity.
  - (* ClearTranscriptRubric *)
    unfold run, clear_transcript_rubric, bind, lift, write, show.
    rewrite fresh_rubric_ok. cbn.
    destruct Hinv as (Hi & Hs & Hv & Hsu & Ht).
    unfold ui_session. cbn. auto.
  - (* MarkAllPending *)
    destruct Hinv as (Hi & Hs & Hv & Hsu & Ht).
    unfold ui_session. cbn.
    destruct (map_status_id
                (fun r => if py_eq (status r) (PStr RubricStatus.PENDING)
                          then set_status (PStr RubricStatus.NOT_MET) r else r)
                (rubric (ss w))) as [-> ->].
    { intros r. destruct (py_eq (status r) _); auto. }
    repeat split; auto.
    apply map_status_valid; [|exact Hv].
    intros r Hr. destruct (py_eq (status r) _); [reflexivity | exact Hr].
  - (* ClearSavedSession *)
    cbn. eapply ui_session_frame; [..|exact Hinv]; reflexivity.
Qed.

Lemma perform_all_keeps_ui_session (actions : list action) (w : App) :
  Forall (fun a => from_widgets a /\ is_upload a = false) actions ->
  ui_session (ss w) -> ui_session (ss (perform_all actions w)).
Proof.
  revert w. induction actions as [|a actions IH]; intros w Hall Hinv;
    [exact Hinv|].
  inversion Hall as [|? ? [Hw Hup] Hrest]; subst.
  change (perform_all (a :: actions) w)
    with (perform_all actions (run (perform a) w)).
  apply IH; [exact Hrest|].
  now apply perform_keeps_ui_session.
Qed.

Lemma initial_state_ui_session : ui_session initial_state.
Proof. unfold ui_session. cbn. auto. Qed.

(** X9.  A session into which no file is loaded never breaks the page.
    Starting from a store whose rubric has the identifiers and skills
    of the initial rubric and statuses among the three options (the
    initial store is one), any sequence of user actions other than an
    upload, with the selectboxes handing back their own options, leads
    to such a store again; and in such a store the rubric loop returns
    whatever is picked, "End Session" and the summary block return, and
    the rubric of the email report is produced. *)
Theorem ui_session_never_raises (actions : list action) (w : App)
    (picked : nat -> option string) :
  ui_session (ss w) ->
  Forall (fun a => from_widgets a /\ is_upload a = false) actions ->
  let w' := perform_all actions w in
  ui_session (ss w')
  /\ fst (rubric_selectboxes picked w') = Ok tt
  /\ fst (end_session w') = Ok tt
  /\ fst (session_summary w') = Ok tt
  /\ exists report, format_rubric_for_email (rubric (ss w')) = Ok report.
Proof.
  intros Hinv Hall. cbv zeta.
  pose proof (perform_all_keeps_ui_session actions w Hall Hinv) as H.
  set (w' := perform_all actions w) in *. clearbody w'.
  split; [exact H|]. split; [|split; [|split]].
  - pose proof (ui_session_keys _ H) as Hnd.
    destruct H as (_ & _ & Hv & _).
    unfold rubric_selectboxes, bind, read.
    pose proof (rubric_rows_valid picked (rubric (ss w')) [] w' eq_refl Hv Hnd)
      as Hr.
    cbn [app length] in Hr. now rewrite Hr.
  - unfold end_session, bind, read.
    destruct (String.eqb _ _); [|reflexivity].
    unfold write, lift. cbn [ss page].
    assert (H1 : ui_session (set_session_status "ended" (ss w'))).
    { eapply ui_session_frame; [..|exact H]; reflexivity. }
    now rewrite (ui_session_summary _ H1).
  - unfold session_summary, bind, read.
    destruct (String.eqb _ _); [|reflexivity].
    destruct (summary_text (ss w')); [reflexivity|].
    unfold lift. now rewrite (ui_session_summary _ H).
  - destruct H as (_ & _ & Hv & _).
    unfold format_rubric_for_email.
    rewrite (rmap_ok _ (fun r => "- " ++ format_value (skill r) ++ ": "
                                 ++ status_name r)); [cbn; eauto|].
    intros r Hr. rewrite forallb_forall in Hv.
    now rewrite (status_label_valid r (Hv r Hr)).
Qed.

(** *** The transcript only grows *)

Lemma rubric_rows_frame (picked : nat -> option string)
    (items : list RubricItem) :
  forall idx keys w,
    exists ru,
      snd (rubric_rows picked idx keys items w)
      = mkApp (set_rubric ru (ss w)) (page w).
Proof.
  induction items as [|item items IH]; intros idx keys w; cbn [rubric_rows].
  - exists (rubric (ss w)). cbn. now rewrite set_rubric_same, mkApp_eta.
  - unfold bind, lift.
    destruct (list_index (status item) status_options) as [i|e].
    + destruct (selectbox _ _ _ _ _) as [v|e].
      * unfold write.
        match goal with
        | |- context [rubric_rows picked (S idx) ?ks items ?w1] =>
            destruct (IH (S idx) ks w1) as [ru Hru]
        end.
        exists ru. rewrite Hru. reflexivity.
      * exists (rubric (ss w)). cbn. now rewrite set_rubric_same, mkApp_eta.
    + exists (rubric (ss w)). cbn. now rewrite set_rubric_same, mkApp_eta.
Qed.

Lemma perform_extends_transcript (a : action) (w : App) :
  keeps_transcript a = true ->
  exists suffix,
    transcript (ss (run (perform a) w)) = (transcript (ss w) ++ suffix)%list
    /\ length suffix <= 1.
Proof.
  assert (Hsame : forall s : SessionState,
             transcript s = transcript (ss w) ->
             exists suffix,
               transcript s = (transcript (ss w) ++ suffix)%list
               /\ length suffix <= 1).
  { intros s ->. exists []. rewrite app_nil_r. cbn. auto. }
  assert (Hone : forall (s : SessionState) e,
             transcript s = append (transcript (ss w)) e ->
             exists suffix,
               transcript s = (transcript (ss w) ++ suffix)%list
               /\ length suffix <= 1).
  { intros s e ->. exists [e]. cbn. auto. }
  intros Hk. destruct a; cbn [perform]; try discriminate.
  - unfold run, welcome_form, bind, read.
    destruct (user_details (ss w)); [now apply Hsame|].
    destruct (negb _); now apply Hsame.
  - unfold run, end_session, bind, read.
    destruct (String.eqb _ _); [|now apply Hsame].
    unfold write, lift. cbn [ss page].
    destruct (generate_local_summary _ _ _); now apply Hsame.
  - now apply (Hone _ (system_entry
                         ("Snapshot captured (size " ++ format_value (PInt size)
                          ++ " bytes)") now)).
  - unfold run. rewrite add_transcript_run. cbn [snd].
    destruct (nonblank _); [|now apply Hsame].
    now apply (Hone _ (entry_of (speaker_choice, text_input, now))).
  - unfold run, rubric_selectboxes, bind, read.
    destruct (rubric_rows_frame picked (rubric (ss w)) 0 [] w) as [ru ->].
    now apply Hsame.
  - now apply Hsame.
  - unfold run, accept_suggestion, bind, read.
    destruct (suggested_update (ss w)) as [su|]; [|now apply Hsame].
    now apply (Hone _ (system_entry
                         ("Suggestion accepted for "
                          ++ format_value (skillId su)) now)).
  - unfold run, reject_suggestion, bind, read.
    destruct (suggested_update (ss w)) as [su|]; [|now apply Hsame].
    now apply (Hone _ (system_entry
                         ("Suggestion rejected for "
                          ++ format_value (skillId su)) now)).
  - unfold run, session_summary, bind, read.
    destruct (String.eqb _ _); [|now apply Hsame].
    destruct (summary_text (ss w)); [now apply Hsame|].
    unfold lift. destruct (generate_local_summary _ _ _); now apply Hsame.
  - now apply Hsame.
  - now apply Hsame.
Qed.

(** X11.  The transcript only grows.  Apart from "Start New Session",
    "Clear transcript & rubric" and an upload, which replace it, no
    action edits, removes or reorders an entry: after any sequence of
    the other actions the old transcript is a prefix of the new one,
    and each action has added at most one entry. *)
Theorem transcript_append_only (actions : list action) (w : App) :
  forallb keeps_transcript actions = true ->
  exists suffix,
    transcript (ss (perform_all actions w))
    = (transcript (ss w) ++ suffix)%list
    /\ length suffix <= length actions.
Proof.
  revert w. induction actions as [|a actions IH]; intros w H.
  - exists []. cbn. rewrite app_nil_r. auto.
  - cbn in H. apply andb_prop in H. destruct H as [Ha Hs].
    change (perform_all (a :: actions) w)
      with (perform_all actions (run (perform a) w)).
    destruct (perform_extends_transcript a w Ha) as (s1 & H1 & L1).
    destruct (IH (run (perform a) w) Hs) as (s2 & H2 & L2).
    exists (s1 ++ s2)%list. rewrite H2, H1, <- app_assoc.
    split; [reflexivity|]. rewrite length_app. cbn. lia.
Qed.

(** *** A summary that cannot be made *)

Lemma join_non_str (sep : string) (xs : list pyval) (v : pyval) :
  In v xs -> is_str v = false -> join sep xs = Raise TypeError.
Proof.
  intros Hin Hv. unfold join.
  rewrite (rmap_raise_all as_str xs v TypeError Hin); [reflexivity| |].
  - destruct v; try reflexivity. discriminate.
  - intros y e'. destruct y; cbn; congruence.
Qed.

Lemma forallb_false_ex {A} (p : A -> bool) (xs : list A) :
  forallb p xs = false -> exists x, In x xs /\ p x = false.
Proof.
  induction xs as [|x xs IH]; cbn; [discriminate|].
  destruct (p x) eqn:E; cbn; intros H.
  - destruct (IH H) as (y & Hy & Hp). eauto.
  - eauto.
Qed.

Lemma join_result (sep : string) (xs : list pyval) :
  (exists out, join sep xs = Ok out) \/ join sep xs = Raise TypeError.
Proof.
  destruct (forallb is_str xs) eqn:E.
  - left. rewrite (join_strs sep xs E). eauto.
  - right. apply forallb_false_ex in E. destruct E as (v & Hin & Hv).
    now apply (join_non_str sep xs v).
Qed.

(** X10.  [generate_local_summary] joins the skills of the met and of
    the not-met items: as soon as one of those items has a skill that
    is not a string (the upload handler lets any value through), it
    raises [TypeError].  The skills of the other items are never
    joined. *)
Theorem generate_local_summary_non_str_skill (s : SessionState)
    (transcript : list TranscriptEntry) (rubric : list RubricItem)
    (r : RubricItem) :
  In r rubric ->
  has_status "met" r = true \/ has_status "not_met" r = true ->
  is_str (skill r) = false ->
  generate_local_summary s transcript rubric = Raise TypeError.
Proof.
  intros Hin Hst Hsk. unfold generate_local_summary.
  rewrite !filter_met.
  change RubricStatus.MET with "met". change RubricStatus.NOT_MET with "not_met".
  assert (Hjoin : forall st,
             has_status st r = true ->
             truthy (PList (map skill (filter (has_status st) rubric))) = true
             /\ join ", " (map skill (filter (has_status st) rubric))
                = Raise TypeError).
  { intros st Hr.
    assert (Hm : In (skill r) (map skill (filter (has_status st) rubric))).
    { apply in_map. apply filter_In. auto. }
    split; [|now apply (join_non_str _ _ (skill r))].
    destruct (map skill (filter (has_status st) rubric));
      [destruct Hm | reflexivity]. }
  destruct Hst as [Hm|Hn].
  - destruct (Hjoin "met" Hm) as [-> ->]. reflexivity.
  - destruct (Hjoin "not_met" Hn) as [Ht Hj].
    destruct (truthy (PList (map skill (filter (has_status "met") rubric)))).
    + destruct (join_result ", " (map skill (filter (has_status "met") rubric)))
        as [[out ->]| ->]; [|reflexivity].
      cbn [rbind]. rewrite Ht, Hj. reflexivity.
    + cbn [rbind]. rewrite Ht, Hj. reflexivity.
Qed.
End Script.

(* ------------------------------------------------------------------ *)
(** ** The properties on the reference library and the sample sessions *)

Local Abbreviation ref_summary := (generate_local_summary Ref.py_str).
Local Abbreviation ref_restore :=
  (restore Ref.bytes Ref.json_text Ref.json_loads Ref.decode_utf8).
Local Abbreviation ref_load :=
  (load_handler Ref.bytes Ref.json_text Ref.json_loads Ref.decode_utf8).
Local Abbreviation ref_download :=
  (download_session Ref.bytes Ref.json_text Ref.json_dumps Ref.encode_utf8).
Local Abbreviation ref_accept := (accept_suggestion Ref.py_str).
Local Abbreviation ref_reject := (reject_suggestion Ref.py_str).
Local Abbreviation ref_rows := (rubric_selectboxes Ref.py_str).
Local Abbreviation uploaded v := (Some (Ref.Utf8 (Ref.Document v))).

Lemma ref_decode_encode (t : Ref.json_text) :
  Ref.decode_utf8 (Ref.encode_utf8 t) = Ok t.
Proof. reflexivity. Qed.

Lemma ref_loads_dumps (v : pyval) : Ref.json_loads (Ref.json_dumps v) = Ok v.
Proof. reflexivity. Qed.

(** The scenario of the specification: one met and one not-met skill and
    one line of the student. *)
Example summary_scenario :
  ref_summary (session_of (Some alice) sample_transcript sample_rubric)
    sample_transcript sample_rubric
  = Ok ("Dear Alice," ++ LF ++ LF
        ++ "Strengths: Hand hygiene." ++ LF ++ LF
        ++ "Areas for improvement: Consent." ++ LF ++ LF
        ++ "Notes from the session: Hi doctor" ++ LF ++ LF
        ++ closing_sentence).
Proof. reflexivity. Qed.

(** C4, on the scenario. *)
Lemma generate_local_summary_algorithm_witness :
  let s := session_of (Some alice) sample_transcript sample_rubric in
  ref_summary s sample_transcript sample_rubric
  = Ok (summary_spec (participant Ref.py_str s) sample_transcript sample_rubric)
  /\ Forall (fun line => line <> "")
       (summary_sections (participant Ref.py_str s)
          sample_transcript sample_rubric)
  /\ exists before,
       summary_sections (participant Ref.py_str s)
         sample_transcript sample_rubric
       = (before ++ [closing_sentence])%list.
Proof.
  apply (generate_local_summary_algorithm Ref.py_str); reflexivity.
Defined.

(** C1, as stated, fails: the same transcript and rubric give two
    different summaries in two stores that differ in the participant's
    name. *)
Lemma generate_local_summary_depends_on_store :
  ref_summary (session_of (Some alice) sample_transcript sample_rubric)
    sample_transcript sample_rubric
  <> ref_summary (session_of (Some bob) sample_transcript sample_rubric)
       sample_transcript sample_rubric.
Proof. vm_compute. discriminate. Qed.

(** C1 (amended), on two stores that agree on the name only. *)
Lemma generate_local_summary_reads_only_the_name_witness :
  ref_summary (session_of (Some alice) [] []) sample_transcript sample_rubric
  = ref_summary
      (set_session_status "ended"
         (session_of
            (Some (mkUserDetails (PStr "Alice") (PStr "other") PNone))
            sample_transcript []))
      sample_transcript sample_rubric.
Proof.
  apply (generate_local_summary_reads_only_the_name Ref.py_str). reflexivity.
Defined.

(** C3, as stated, fails: a session saved before the welcome form has
    no user details, and loading its document into a session that has
    some leaves those in place. *)
Lemma load_download_keeps_user_details :
  let s := session_of None sample_transcript sample_rubric in
  let w := mkApp (session_of (Some alice) [] []) [] in
  user_details (ss (run (ref_load (Some (ref_download s))) w))
  <> user_details s.
Proof. cbn. discriminate. Qed.

(** C3 (amended), on a saved session with user details. *)
Lemma load_download_roundtrip_witness :
  let s := session_of (Some alice) sample_transcript sample_rubric in
  let w' := run (ref_load (Some (ref_download s))) fresh in
  transcript (ss w') = sample_transcript
  /\ rubric (ss w') = sample_rubric
  /\ user_details (ss w') = Some alice
  /\ session_status (ss w') = "ended".
Proof.
  pose proof (load_download_roundtrip Ref.bytes Ref.json_text Ref.json_dumps
                Ref.json_loads Ref.encode_utf8 Ref.decode_utf8
                ref_decode_encode ref_loads_dumps
                (session_of (Some alice) sample_transcript sample_rubric)
                fresh) as H.
  cbv zeta in H. destruct H as (Ht & Hr & Hu & Hs & _).
  cbv zeta. split; [exact Ht|]. split; [exact Hr|]. split; [exact Hu|].
  exact Hs.
Defined.

(** C2, as stated, fails: a document with a complete transcript and an
    incomplete rubric item is rejected, and the transcript of the store
    has been replaced by the document's all the same. *)
Lemma failed_load_changes_transcript :
  fst (ref_restore (Ref.Utf8 (Ref.Document half_good_document)) fresh)
  = Raise TypeError
  /\ transcript (ss fresh) = []
  /\ transcript (ss (run (ref_load (uploaded half_good_document)) fresh))
     = [mkTranscriptEntry (PStr "user") (PStr "Hi doctor") (PInt 1)]
  /\ ss (run (ref_load (uploaded half_good_document)) fresh) <> ss fresh.
Proof.
  split; [reflexivity|]. split; [reflexivity|]. split; [reflexivity|].
  cbn. discriminate.
Qed.

(** C2 (amended), on that document: the load fails at the rubric
    section, and the store is the old one with the document's
    transcript. *)
Lemma failing_operation_effect_witness :
  let w' := run (ref_load (uploaded half_good_document)) fresh in
  page w' = [st_error "Failed to load session: " TypeError]
  /\ user_details (ss w') = None
  /\ session_status (ss w') = "idle"
  /\ ss w'
     = set_transcript
         [mkTranscriptEntry (PStr "user") (PStr "Hi doctor") (PInt 1)]
         (ss fresh)
  /\ rubric (ss w') = INITIAL_RUBRIC.
Proof.
  pose proof (proj2 (proj2 (failing_operation_effect Ref.bytes Ref.json_text
                              Ref.json_loads Ref.decode_utf8 Ref.py_str))
                (Ref.Utf8 (Ref.Document half_good_document)) fresh TypeError
                eq_refl) as H.
  cbv zeta in H.
  destruct H as (Hp & Hu & _ & Hs & _ & _ & _ & _ & Hss & _ & Hr).
  cbv zeta. split; [exact Hp|]. split; [exact Hu|]. split; [exact Hs|].
  split; [exact Hss|].
  destruct (Hr half_good_document
              [mkTranscriptEntry (PStr "user") (PStr "Hi doctor") (PInt 1)]
              eq_refl eq_refl) as (_ & Hru & _).
  exact (Hru TypeError eq_refl).
Defined.

(** C5, on the document with the incomplete rubric item, and on a
    payload that is not JSON. *)
Lemma decode_rejects_incomplete_witness :
  (exists e,
      fst (ref_restore (Ref.Utf8 (Ref.Document half_good_document)) fresh)
      = Raise e)
  /\ (exists e,
         fst (ref_restore (Ref.Utf8 Ref.NotJson) fresh) = Raise e
         /\ ss (run (ref_load (Some (Ref.Utf8 Ref.NotJson))) fresh)
            = ss fresh).
Proof.
  split.
  - destruct (decode_rejects_incomplete Ref.bytes Ref.json_text
                Ref.json_loads Ref.decode_utf8
                (Ref.Utf8 (Ref.Document half_good_document)) fresh)
      as (e & He & _).
    + right. right.
      exists [ ("user_details", PNone);
               ("transcript",
                PList [PDict [("speaker", PStr "user");
                              ("text", PStr "Hi doctor"); ("ts", PInt 1)]]);
               ("rubric", PList [PDict [("id", PStr "a")]]);
               ("summary", PNone) ],
             [PDict [("id", PStr "a")]], (PDict [("id", PStr "a")]).
      split; [reflexivity|]. split; [reflexivity|].
      split; [left; reflexivity | reflexivity].
    + exists e. exact He.
  - assert (Hbad : not_valid_json Ref.bytes Ref.json_text Ref.json_loads
                     Ref.decode_utf8 (Ref.Utf8 Ref.NotJson)).
    { exists JSONDecodeError. reflexivity. }
    destruct (decode_rejects_incomplete Ref.bytes Ref.json_text
                Ref.json_loads Ref.decode_utf8
                (Ref.Utf8 Ref.NotJson) fresh (or_introl Hbad))
      as (e & He & H).
    cbv zeta in H. destruct H as (_ & _ & Hss).
    exists e. split; [exact He | apply Hss; left; exact Hbad].
Defined.




(** C7, as stated, fails: a blank text is dropped without a word. *)
Lemma blank_text_is_not_reported :
  strip "   " = ""
  /\ add_transcript "user" "   " one fresh = (Ok tt, fresh)
  /\ reports_failure (add_transcript "user" "   " one) fresh = false.
Proof. repeat split. Qed.

(** C7 (amended), on three submissions, the second one blank. *)
Lemma add_transcript_sequence_witness :
  let calls := [("user", " Hi doctor ", one); ("ai", "   ", one);
                ("ai", "Hello", two)] in
  transcript (ss (add_all calls fresh))
  = [ mkTranscriptEntry (PStr "user") (PStr "Hi doctor") (PFloat one);
      mkTranscriptEntry (PStr "ai") (PStr "Hello") (PFloat two) ]
  /\ add_transcript "ai" "   " one fresh = (Ok tt, fresh).
Proof.
  destruct (add_transcript_sequence
              [("user", " Hi doctor ", one); ("ai", "   ", one);
               ("ai", "Hello", two)] fresh) as (Ht & _ & _ & Hb).
  split; [exact Ht|].
  exact (proj2 (Hb "ai" "   " one fresh) eq_refl).
Defined.



(** C9, on a rubric with two pending items and one met item. *)
Lemma mark_all_pending_not_met_effect_witness :
  let ru := [ mkRubricItem (PStr "a") (PStr "Hand hygiene") (PStr "pending");
              mkRubricItem (PStr "b") (PStr "Consent") (PStr "met");
              mkRubricItem (PStr "c") (PStr "Privacy") (PStr "pending") ] in
  let w' := run mark_all_pending_not_met
              (mkApp (session_of (Some alice) [] ru) []) in
  ss w' = set_rubric (rubric (ss w')) (session_of (Some alice) [] ru)
  /\ page w' = [st_success "Updated pending items."].
Proof.
  pose proof (mark_all_pending_not_met_effect
                (mkApp (session_of (Some alice) []
                   [ mkRubricItem (PStr "a") (PStr "Hand hygiene") (PStr "pending");
                     mkRubricItem (PStr "b") (PStr "Consent") (PStr "met");
                     mkRubricItem (PStr "c") (PStr "Privacy") (PStr "pending") ])
                   [])) as H.
  cbv zeta in H. destruct H as (_ & Hs & Hp).
  split; [exact Hs | exact Hp].
Defined.

(** The scenario of the specification for the bulk action. *)
Example mark_all_pending_scenario :
  map status
    (rubric (ss (run mark_all_pending_not_met
                   (mkApp (session_of (Some alice) []
                      [ mkRubricItem (PStr "a") (PStr "Hand hygiene") (PStr "pending");
                        mkRubricItem (PStr "b") (PStr "Consent") (PStr "met");
                        mkRubricItem (PStr "c") (PStr "Privacy") (PStr "pending") ])
                      []))))
  = [PStr "not_met"; PStr "met"; PStr "not_met"].
Proof. reflexivity. Qed.

(* ------------------------------------------------------------------ *)
(** ** The further properties on the sample sessions *)

Local Abbreviation ref_save :=
  (save_session_to_bytes Ref.bytes Ref.json_text Ref.json_dumps
     Ref.encode_utf8).
Local Abbreviation ref_perform_all :=
  (perform_all Ref.bytes Ref.json_text Ref.json_loads Ref.decode_utf8
     Ref.py_str).
Local Abbreviation ref_end := (end_session Ref.py_str).
Local Abbreviation ref_session_summary := (session_summary Ref.py_str).

(** X1, on the sample session. *)
Lemma footer_dump_roundtrip_witness :
  exists doc,
    footer_dump (session_of (Some alice) sample_transcript sample_rubric)
    = Ok doc
    /\ let w' := run (ref_load (Some (ref_save doc)))
                   (mkApp (session_of (Some bob) [] []) []) in
       transcript (ss w') = sample_transcript
       /\ rubric (ss w') = sample_rubric
       /\ user_details (ss w') = Some alice
       /\ session_status (ss w') = "ended".
Proof.
  exact (footer_dump_roundtrip Ref.bytes Ref.json_text Ref.json_dumps
           Ref.json_loads Ref.encode_utf8 Ref.decode_utf8
           ref_decode_encode ref_loads_dumps
           (session_of (Some alice) sample_transcript sample_rubric) alice
           (mkApp (session_of (Some bob) [] []) []) eq_refl).
Defined.

(** X3, on a store that holds a summary when the sample document is
    loaded. *)
Lemma summary_survives_load_witness :
  let w := mkApp (set_summary_text (Some "old summary")
                    (session_of (Some alice) [] [])) [] in
  let w1 := run (ref_load (uploaded document_without_status)) w in
  session_status (ss w1) = "ended"
  /\ summary_text (ss w1) = Some "old summary"
  /\ ref_session_summary w1 = (Ok tt, w1).
Proof.
  exact (summary_survives_load Ref.bytes Ref.json_text Ref.json_loads
           Ref.decode_utf8 Ref.py_str
           (Ref.Utf8 (Ref.Document document_without_status))
           (mkApp (set_summary_text (Some "old summary")
                     (session_of (Some alice) [] [])) [])
           "old summary" eq_refl eq_refl).
Defined.

(** X4, on the empty object. *)
Lemma load_without_keys_clears_witness :
  let w' := run (ref_load (uploaded (PDict [])))
              (mkApp (session_of (Some alice) sample_transcript sample_rubric)
                 []) in
  transcript (ss w') = []
  /\ rubric (ss w') = []
  /\ user_details (ss w') = Some alice
  /\ session_status (ss w') = "ended"
  /\ page w' = [st_success "Session loaded from file."].
Proof.
  exact (load_without_keys_clears Ref.bytes Ref.json_text Ref.json_loads
           Ref.decode_utf8 (Ref.Utf8 (Ref.Document (PDict []))) []
           (mkApp (session_of (Some alice) sample_transcript sample_rubric) [])
           eq_refl eq_refl eq_refl eq_refl).
Defined.

(** X5, on a document that is a list. *)
Lemma load_rejects_non_object_witness :
  fst (ref_restore (Ref.Utf8 (Ref.Document (PList [PInt 1]))) fresh)
  = Raise AttributeError
  /\ run (ref_load (uploaded (PList [PInt 1]))) fresh
     = mkApp initial_state
         [st_error "Failed to load session: " AttributeError].
Proof.
  exact (load_rejects_non_object Ref.bytes Ref.json_text Ref.json_loads
           Ref.decode_utf8 (Ref.Utf8 (Ref.Document (PList [PInt 1])))
           (PList [PInt 1]) fresh eq_refl eq_refl).
Defined.

(** X6, on a transcript entry with a [note]. *)
Lemma load_rejects_unexpected_key_witness :
  let entry := PDict [("speaker", PStr "user"); ("text", PStr "Hi");
                      ("ts", PInt 1); ("note", PStr "x")] in
  let b := Ref.Utf8 (Ref.Document (PDict [("transcript", PList [entry])])) in
  exists e,
    fst (ref_restore b fresh) = Raise e
    /\ ss (run (ref_load (Some b)) fresh) = initial_state.
Proof.
  cbv zeta.
  destruct (load_rejects_unexpected_key Ref.bytes Ref.json_text
              Ref.json_loads Ref.decode_utf8
              (Ref.Utf8 (Ref.Document
                 (PDict [("transcript",
                          PList [PDict [("speaker", PStr "user");
                                        ("text", PStr "Hi"); ("ts", PInt 1);
                                        ("note", PStr "x")]])])))
              [("transcript",
                PList [PDict [("speaker", PStr "user"); ("text", PStr "Hi");
                              ("ts", PInt 1); ("note", PStr "x")]])]
              [PDict [("speaker", PStr "user"); ("text", PStr "Hi");
                      ("ts", PInt 1); ("note", PStr "x")]]
              (PDict [("speaker", PStr "user"); ("text", PStr "Hi");
                      ("ts", PInt 1); ("note", PStr "x")])
              fresh eq_refl (or_introl eq_refl)
              (or_introl (conj eq_refl eq_refl)))
    as (e & He & H).
  cbv zeta in H. destruct H as (_ & _ & Hss).
  exists e. split; [exact He|]. apply Hss. split; reflexivity.
Defined.

(** X7, on a rubric whose second row has the status ["done"]: the loop
    stops there with [ValueError], the pick of the first row written. *)
Lemma rubric_loop_rejects_foreign_status_witness :
  let ru := [ mkRubricItem (PStr "a") (PStr "Hand hygiene") (PStr "pending");
              mkRubricItem (PStr "b") (PStr "Consent") (PStr "done");
              mkRubricItem (PStr "a") (PStr "Privacy") (PStr "met") ] in
  let w := mkApp (session_of (Some alice) [] ru) [] in
  let picked := fun idx => if Nat.eqb idx 0 then Some "met" else None in
  fst (ref_rows picked w) = Raise ValueError
  /\ rubric (ss (run (ref_rows picked) w))
     = [ mkRubricItem (PStr "a") (PStr "Hand hygiene") (PStr "met");
         mkRubricItem (PStr "b") (PStr "Consent") (PStr "done");
         mkRubricItem (PStr "a") (PStr "Privacy") (PStr "met") ].
Proof.
  cbv zeta.
  destruct (rubric_loop_rejects_foreign_status Ref.py_str
              (fun idx => if Nat.eqb idx 0 then Some "met" else None)
              (mkApp (session_of (Some alice) []
                        [ mkRubricItem (PStr "a") (PStr "Hand hygiene")
                            (PStr "pending");
                          mkRubricItem (PStr "b") (PStr "Consent")
                            (PStr "done");
                          mkRubricItem (PStr "a") (PStr "Privacy")
                            (PStr "met") ]) [])
              eq_refl) as (_ & _ & Hstop).
  unfold run.
  rewrite (Hstop
             [mkRubricItem (PStr "a") (PStr "Hand hygiene") (PStr "pending")]
             (mkRubricItem (PStr "b") (PStr "Consent") (PStr "done"))
             [mkRubricItem (PStr "a") (PStr "Privacy") (PStr "met")]).
  - split; reflexivity.
  - reflexivity.
  - reflexivity.
  - apply keys_free_distinct. reflexivity.
  - reflexivity.
Defined.

(** X18, on a rubric whose second row repeats the identifier of the
    first and whose third row has the status ["done"]: the loop stops
    at the second row with [DuplicateWidgetID]. *)
Lemma rubric_loop_rejects_duplicate_key_witness :
  let ru := [ mkRubricItem (PStr "a") (PStr "Hand hygiene") (PStr "met");
              mkRubricItem (PStr "a") (PStr "Consent") (PStr "pending");
              mkRubricItem (PStr "b") (PStr "Privacy") (PStr "done") ] in
  let w := mkApp (session_of (Some alice) [] ru) [] in
  ref_rows (fun _ => None) w = (Raise DuplicateWidgetID, w).
Proof.
  cbv zeta.
  rewrite (rubric_loop_rejects_duplicate_key Ref.py_str (fun _ => None)
             (mkApp (session_of (Some alice) []
                       [ mkRubricItem (PStr "a") (PStr "Hand hygiene")
                           (PStr "met");
                         mkRubricItem (PStr "a") (PStr "Consent")
                           (PStr "pending");
                         mkRubricItem (PStr "b") (PStr "Privacy")
                           (PStr "done") ]) [])
             [mkRubricItem (PStr "a") (PStr "Hand hygiene") (PStr "met")]
             (mkRubricItem (PStr "a") (PStr "Consent") (PStr "pending"))
             [mkRubricItem (PStr "b") (PStr "Privacy") (PStr "done")]).
  - reflexivity.
  - reflexivity.
  - reflexivity.
  - apply keys_free_distinct. reflexivity.
  - reflexivity.
  - left. reflexivity.
Defined.

(** X8, on the sample rubric. *)
Lemma rubric_loop_without_pick_witness :
  let w := mkApp (session_of (Some alice) sample_transcript sample_rubric) [] in
  ref_rows (fun _ => None) w = (Ok tt, w).
Proof.
  apply (rubric_loop_without_pick Ref.py_str).
  - reflexivity.
  - apply keys_free_distinct. reflexivity.
Defined.

(** X9, on a session that is set up, started, worked on and ended. *)
Lemma ui_session_never_raises_witness :
  let w' :=
    ref_perform_all
      [ Welcome Ref.bytes "Alice" "555-0100" "Student nurse" 10;
        StartNewSession Ref.bytes one;
        AddTranscript Ref.bytes "user" "Hi doctor" one;
        RubricRows Ref.bytes
          (fun idx => if Nat.eqb idx 0 then Some "met" else None);
        ProposeSuggestion Ref.bytes (PStr "obtain_consent") "not_met" "lapse";
        AcceptSuggestion Ref.bytes two;
        MarkAllPending Ref.bytes;
        EndSession Ref.bytes ]
      fresh in
  ui_session (ss w')
  /\ fst (ref_rows (fun _ => None) w') = Ok tt
  /\ fst (ref_end w') = Ok tt
  /\ fst (ref_session_summary w') = Ok tt
  /\ exists report,
       format_rubric_for_email Ref.py_str (rubric (ss w')) = Ok report.
Proof.
  apply (ui_session_never_raises Ref.bytes Ref.json_text Ref.json_loads
           Ref.decode_utf8 Ref.py_str).
  - unfold ui_session. cbn. auto.
  - repeat (apply Forall_cons; [split; [|reflexivity]|]);
      try apply Forall_nil; cbn; auto.
    intros i v. destruct (Nat.eqb i 0); [|discriminate].
    intros [= <-]. auto.
Defined.

(** X10, on a met item whose skill is a number. *)
Lemma generate_local_summary_non_str_skill_witness :
  ref_summary (session_of (Some alice) [] [])
    sample_transcript
    [mkRubricItem (PStr "a") (PInt 7) (PStr "met")]
  = Raise TypeError.
Proof.
  apply (generate_local_summary_non_str_skill Ref.py_str _ _ _
           (mkRubricItem (PStr "a") (PInt 7) (PStr "met")));
    [left; reflexivity | left; reflexivity | reflexivity].
Defined.

(** X11, on a snapshot, a blank text, a text and a rejected suggestion. *)
Lemma transcript_append_only_witness :
  exists suffix,
    transcript
      (ss (ref_perform_all
             [ Snapshot Ref.bytes 2048 one;
               AddTranscript Ref.bytes "ai" "  " one;
               AddTranscript Ref.bytes "ai" "Hello" two;
               ProposeSuggestion Ref.bytes (PStr "a") "met" "";
               RejectSuggestion Ref.bytes two ]
             (mkApp (session_of (Some alice) sample_transcript sample_rubric)
                [])))
    = (sample_transcript ++ suffix)%list
    /\ length suffix <= 5.
Proof.
  apply (transcript_append_only Ref.bytes Ref.json_text Ref.json_loads
           Ref.decode_utf8 Ref.py_str
           [ Snapshot Ref.bytes 2048 one;
             AddTranscript Ref.bytes "ai" "  " one;
             AddTranscript Ref.bytes "ai" "Hello" two;
             ProposeSuggestion Ref.bytes (PStr "a") "met" "";
             RejectSuggestion Ref.bytes two ]
           (mkApp (session_of (Some alice) sample_transcript sample_rubric) [])).
  reflexivity.
Defined.

(** X13, on the sample rubric with a pending item added. *)
Lemma format_rubric_for_email_valid_witness :
  format_rubric_for_email Ref.py_str
    (sample_rubric
     ++ [mkRubricItem (PStr "c") (PStr "Privacy") (PStr "pending")])%list
  = Ok ("- Hand hygiene: Met" ++ LF ++ "- Consent: Not Met" ++ LF
        ++ "- Privacy: Pending").
Proof.
  apply (format_rubric_for_email_valid Ref.py_str
           (sample_rubric
            ++ [mkRubricItem (PStr "c") (PStr "Privacy") (PStr "pending")])%list).
  reflexivity.
Defined.

(** X14, on an item whose status is [null]. *)
Lemma format_rubric_for_email_non_str_witness :
  format_rubric_for_email Ref.py_str
    (sample_rubric ++ [mkRubricItem (PStr "c") (PStr "Privacy") PNone])%list
  = Raise AttributeError.
Proof.
  apply (format_rubric_for_email_non_str Ref.py_str _
           (mkRubricItem (PStr "c") (PStr "Privacy") PNone));
    [right; right; left; reflexivity | reflexivity].
Defined.

(** X15, on a name of blanks and a duration of ten minutes. *)
Lemma welcome_form_effect_witness :
  welcome_form "" "555-0100" "Student nurse" 10 fresh
  = (Ok tt, mkApp initial_state [st_warning "Please enter name."])
  /\ let w' := run (welcome_form "  " "555-0100" "Student nurse" 10) fresh in
     user_details (ss w')
     = Some (mkUserDetails (PStr "  ") (PStr "555-0100") (PStr "Student nurse"))
     /\ duration_seconds (ss w') = Some 600%Z.
Proof.
  destruct (welcome_form_effect "" "555-0100" "Student nurse" 10 fresh eq_refl)
    as [Hempty _].
  destruct (welcome_form_effect "  " "555-0100" "Student nurse" 10 fresh
              eq_refl) as [_ Hname].
  split; [exact (Hempty eq_refl)|].
  assert (Hn : "  " <> "") by discriminate.
  assert (Hd : (1 <= 10 <= 180)%Z) by lia.
  destruct (Hname Hn Hd) as (Hu & _ & _ & seconds & Hs & -> & _).
  split; [exact Hu | exact Hs].
Defined.

(** X16, on a text with blanks around it. *)
Lemma add_transcript_appends_trimmed_witness :
  transcript (ss (run (add_transcript "user" "  Hi doctor " one) fresh))
  = [mkTranscriptEntry (PStr "user") (PStr "Hi doctor") (PFloat one)]
  /\ strip "  Hi doctor " <> "".
Proof.
  destruct (add_transcript_appends_trimmed "user" "  Hi doctor " one fresh
              eq_refl) as (Ht & _ & Hne & _).
  split; [exact Ht | exact Hne].
Defined.

(** X17, on a session that was ended before. *)
Lemma start_then_end_summary_witness :
  let w := mkApp (set_session_status "ended"
                    (session_of (Some alice) sample_transcript sample_rubric))
             [] in
  let w' := run ref_end (run (start_new_session one) w) in
  summary_text (ss w')
  = Some (String.concat (LF ++ LF) ["Dear Alice,"; closing_sentence])
  /\ session_status (ss w') = "ended"
  /\ transcript (ss w') = []
  /\ rubric (ss w') = INITIAL_RUBRIC
  /\ start_time (ss w') = Some one.
Proof.
  apply (start_then_end_summary Ref.py_str one
           (mkApp (set_session_status "ended"
                     (session_of (Some alice) sample_transcript sample_rubric))
              [])).
  discriminate.
Defined.
